(** * Kakeibo-App: savings-goal calculator, daily aggregation, entry forms

    A shallow embedding of the computational parts of the household-accounts
    application:

    - [src/app/dashboard/goals/page.tsx]: [fetchGoals] (the per-goal
      calculation inside [.map]) and [handleCreateGoal];
    - the history page ([fetchTransactions], the [forEach] that fills the
      [Map<string, DailyTotal>]);
    - the two transaction entry pages ([handleSubmit] of [InputPage] and of
      [TransactionInputPage]).

    The daily totals are sums, so they are computed with the numbers of the
    JavaScript engine: IEEE 754 binary64, rounding included ([Binary64]). The
    goal calculator and the forms are read on [JS.number], exact rationals
    extended with the two infinities and [NaN]: what is stated there (guards,
    clamps, order) does not turn on the last bit of a quotient. *)

From Stdlib Require Import ZArith QArith Lqa String Ascii List Permutation.
From Stdlib Require Import SpecFloat PrimFloat FloatOps.
From stdpp Require Import gmap strings sorting.
Import ListNotations.

Local Open Scope string_scope.

(** ** JavaScript numbers, read exactly *)

(** The operations below are those of the extended rationals: a difference,
    a product or a quotient is not rounded. *)

Module JS.

Inductive number : Type :=
| NaN
| PInf
| NInf
| Num (q : Q).

Definition zero : number := Num 0.
Definition hundred : number := Num 100.

Definition ofZ (z : Z) : number := Num (inject_Z z).

Definition Qltb (a b : Q) : bool := negb (Qle_bool b a).

(** the infinity of the given sign *)
Definition inf (positive : bool) : number := if positive then PInf else NInf.

(** truthiness of a number: [0] and [NaN] are falsy *)
Definition truthy (x : number) : bool :=
  match x with
  | NaN => false
  | Num q => negb (Qeq_bool q 0)
  | PInf | NInf => true
  end.

(** [x || y] on numbers *)
Definition or (x y : number) : number := if truthy x then x else y.

Definition isNaN (x : number) : bool :=
  match x with NaN => true | _ => false end.

Definition isInfinite (x : number) : bool :=
  match x with PInf | NInf => true | _ => false end.

Definition sub (x y : number) : number :=
  match x, y with
  | NaN, _ | _, NaN => NaN
  | PInf, PInf | NInf, NInf => NaN
  | PInf, _ | _, NInf => PInf
  | NInf, _ | _, PInf => NInf
  | Num a, Num b => Num (a - b)
  end.

(** sign of a rational as the direction of an infinity: [None] for zero *)
Definition direction (a : Q) : option bool :=
  match (a ?= 0)%Q with
  | Gt => Some true
  | Lt => Some false
  | Eq => None
  end.

Definition scaleInf (positive : bool) (a : Q) : number :=
  match direction a with
  | Some s => inf (Bool.eqb positive s)
  | None => NaN
  end.

Definition mul (x y : number) : number :=
  match x, y with
  | NaN, _ | _, NaN => NaN
  | PInf, PInf | NInf, NInf => PInf
  | PInf, NInf | NInf, PInf => NInf
  | PInf, Num b | Num b, PInf => scaleInf true b
  | NInf, Num b | Num b, NInf => scaleInf false b
  | Num a, Num b => Num (a * b)
  end.

(** [x / y]: a non-zero number over zero is an infinity, zero over zero and
    infinity over infinity are [NaN] *)
Definition div (x y : number) : number :=
  match x, y with
  | NaN, _ | _, NaN => NaN
  | (PInf | NInf), (PInf | NInf) => NaN
  | PInf, Num b => if Qle_bool 0 b then PInf else NInf
  | NInf, Num b => if Qle_bool 0 b then NInf else PInf
  | Num _, (PInf | NInf) => Num 0
  | Num a, Num b =>
      if Qeq_bool b 0 then scaleInf true a else Num (a / b)
  end.

(** [x < y], [x > y], [x <= y]: false as soon as one side is [NaN] *)
Definition lt (x y : number) : bool :=
  match x, y with
  | NaN, _ | _, NaN => false
  | _, NInf | PInf, _ => false
  | NInf, _ | _, PInf => true
  | Num a, Num b => Qltb a b
  end.

Definition gt (x y : number) : bool := lt y x.

Definition le (x y : number) : bool :=
  match x, y with
  | NaN, _ | _, NaN => false
  | NInf, _ | _, PInf => true
  | _, NInf | PInf, _ => false
  | Num a, Num b => Qle_bool a b
  end.

Definition ge (x y : number) : bool := le y x.

(** [Math.min] and [Math.max]: [NaN] if an argument is [NaN] *)
Definition min (x y : number) : number :=
  if isNaN x || isNaN y then NaN else if le x y then x else y.

Definition max (x y : number) : number :=
  if isNaN x || isNaN y then NaN else if le x y then y else x.

(** *** [parseFloat] *)

Definition isWhiteSpace (c : ascii) : bool :=
  let n := N_of_ascii c in
  (n =? 32)%N || ((9 <=? n)%N && (n <=? 13)%N).

Definition digitOf (c : ascii) : option Z :=
  let n := Z.of_N (N_of_ascii c) in
  if (48 <=? n)%Z && (n <=? 57)%Z then Some (n - 48)%Z else None.

Fixpoint skipWhiteSpace (s : list ascii) : list ascii :=
  match s with
  | c :: r => if isWhiteSpace c then skipWhiteSpace r else s
  | [] => []
  end.

(** reads the longest run of decimal digits: the value read after [acc], the
    number of digits, and the rest *)
Fixpoint takeDigits (acc count : Z) (s : list ascii) : Z * Z * list ascii :=
  match s with
  | c :: r =>
      match digitOf c with
      | Some d => takeDigits (10 * acc + d)%Z (count + 1)%Z r
      | None => (acc, count, s)
      end
  | [] => (acc, count, [])
  end.

(** an optional sign: [true] for a minus *)
Definition takeSign (s : list ascii) : bool * list ascii :=
  match s with
  | "-"%char :: r => (true, r)
  | "+"%char :: r => (false, r)
  | _ => (false, s)
  end.

Fixpoint isPrefix (p s : list ascii) : bool :=
  match p, s with
  | [], _ => true
  | a :: p', b :: s' => Ascii.eqb a b && isPrefix p' s'
  | _ :: _, [] => false
  end.

(** the exponent part [e±ddd], or 0 when there is none to read *)
Definition takeExponent (s : list ascii) : Z :=
  match s with
  | c :: r =>
      if Ascii.eqb c "e" || Ascii.eqb c "E" then
        let '(minus, r') := takeSign r in
        let '(e, n, _) := takeDigits 0 0 r' in
        if (n =? 0)%Z then 0%Z else if minus then (- e)%Z else e
      else 0%Z
  | [] => 0%Z
  end.

(** [parseFloat(s)]: leading white space is skipped, the longest prefix that
    is a decimal literal (or [Infinity]) is read, [NaN] when there is none.
    The value read is kept exact: it is neither rounded to binary64 nor taken
    to an infinity or to 0 outside the binary64 range. *)
Definition parseFloat (s : string) : number :=
  let s1 := skipWhiteSpace (list_ascii_of_string s) in
  let '(minus, s2) := takeSign s1 in
  if isPrefix (list_ascii_of_string "Infinity") s2 then inf (negb minus)
  else
    let '(ip, ni, s3) := takeDigits 0 0 s2 in
    let '(m, nf, s4) :=
      match s3 with
      | "."%char :: r => takeDigits ip 0 r
      | _ => (ip, 0%Z, s3)
      end in
    if (ni + nf =? 0)%Z then NaN
    else
      let e := takeExponent s4 in
      let v := (inject_Z m * Qpower 10 (e - nf))%Q in
      Num (if minus then (- v)%Q else v).

End JS.

(** ** Binary64 numbers *)

Module Binary64.

(** a JavaScript number as it is stored: an IEEE 754 binary64 value, with
    signed zeros, the infinities and [NaN] *)
Definition number : Type := float.

Definition zero : number := 0%float.

(** [x + y] and [x - y], rounded to nearest, ties to even *)
Definition add (x y : number) : number := PrimFloat.add x y.

Definition sub (x y : number) : number := PrimFloat.sub x y.

(** the number nearest to an integer *)
Definition ofZ (z : Z) : number :=
  SF2Prim (binary_normalize prec emax z 0 false).

(** the numbers written [0.1], [0.2] and [0.3] *)
Definition tenth : number := 0x1.999999999999ap-4%float.
Definition twoTenths : number := 0x1.999999999999ap-3%float.
Definition threeTenths : number := 0x1.3333333333333p-2%float.

End Binary64.

(** ** History page: the daily totals of [fetchTransactions] *)

Module TransactionType.
(** [type TransactionType = "income" | "expense"] *)
Inductive t : Type := income | expense.

#[global] Instance eq_dec : EqDecision t.
Proof. solve_decision. Defined.
End TransactionType.

Module History.

(** A row of [transactions]. [amount] holds [Number(tx.amount)], the only way
    the page reads the column. *)
Record Transaction : Type := {
  transaction_id : Z;
  user_id : string;
  type : TransactionType.t;
  amount : Binary64.number;
  category_id : option Z;
  date : string;
  memo : option string;
  created_at : string
}.

Record DailyTotal : Type := {
  income : Binary64.number;
  expense : Binary64.number;
  net : Binary64.number
}.

(** The body of [txs.forEach((tx) => { ... })]: [totals.get(dateKey) || {...}],
    the update of one of the two sums, the recomputed [net], and
    [totals.set(dateKey, existing)]. *)
Definition accumulate (totals : gmap string DailyTotal) (tx : Transaction)
  : gmap string DailyTotal :=
  let dateKey := date tx in
  let existing :=
    default {| income := Binary64.zero; expense := Binary64.zero;
               net := Binary64.zero |}
            (totals !! dateKey) in
  let '(income', expense') :=
    match type tx with
    | TransactionType.income =>
        (Binary64.add (income existing) (amount tx), expense existing)
    | TransactionType.expense =>
        (income existing, Binary64.add (expense existing) (amount tx))
    end in
  <[dateKey := {| income := income';
                  expense := expense';
                  net := Binary64.sub income' expense' |}]> totals.

(** [const totals = new Map(); txs.forEach(...)] *)
Definition dailyTotals (txs : list Transaction) : gmap string DailyTotal :=
  fold_left accumulate txs ∅.

(** [getTransactionsForDate], on the formatted date string *)
Definition getTransactionsForDate (transactions : list Transaction)
    (dateStr : string) : list Transaction :=
  filter (λ tx, date tx = dateStr) transactions.

(** *** What the totals are compared with *)

(** the amounts of the transactions of type [ty] dated [d], in list order *)
Definition amountsOn (ty : TransactionType.t) (d : string)
    (txs : list Transaction) : list Binary64.number :=
  amount <$> filter (λ tx, type tx = ty)
               (getTransactionsForDate txs d).

(** the sum of a list of numbers, added from 0 in list order:
    [((0 + a1) + a2) + ...] *)
Definition sum (l : list Binary64.number) : Binary64.number :=
  fold_left Binary64.add l Binary64.zero.

(** the total the page should show for date [d]: the two sums and their
    difference *)
Definition totalOn (d : string) (txs : list Transaction) : DailyTotal :=
  let i := sum (amountsOn TransactionType.income d txs) in
  let e := sum (amountsOn TransactionType.expense d txs) in
  {| income := i; expense := e; net := Binary64.sub i e |}.

Definition withAmount (d : string) (ty : TransactionType.t)
    (a : Binary64.number) : Transaction :=
  {| transaction_id := 0; user_id := "u"; type := ty; amount := a;
     category_id := Some 1%Z; date := d; memo := None; created_at := "" |}.

Definition mkTx (d : string) (ty : TransactionType.t) (a : Z) : Transaction :=
  withAmount d ty (Binary64.ofZ a).

(** the three transactions of the worked scenario *)
Definition juneScenario : list Transaction :=
  [ mkTx "2024-06-01" TransactionType.income 1000;
    mkTx "2024-06-01" TransactionType.expense 300;
    mkTx "2024-06-02" TransactionType.expense 200 ].

(** three incomes of one day, 0.1, 0.2 and 0.3, and the same three in the
    opposite order *)
Definition smallIncomes : list Transaction :=
  [ withAmount "2024-06-01" TransactionType.income Binary64.tenth;
    withAmount "2024-06-01" TransactionType.income Binary64.twoTenths;
    withAmount "2024-06-01" TransactionType.income Binary64.threeTenths ].



End History.

(** ** The date library

    [new Date(s)], [Date.prototype.toISOString] and date-fns'
    [differenceInMonths] / [differenceInDays] are not code of the
    application: the calculator is written against this interface. *)

Class DateLib : Type := {
  Date : Type;
  (** [new Date(s)]; [None] stands for the Invalid Date, the one with
      [isNaN(d.getTime())] *)
  newDate : string → option Date;
  toISOString : Date → string;
  differenceInMonths : Date → Date → Z;
  differenceInDays : Date → Date → Z
}.

(** [s.slice(0, n)] *)
Definition slice0 (n : nat) (s : string) : string := substring 0 n s.

(** truthiness of a string: only the empty string is falsy *)
Definition nonEmpty (s : string) : bool :=
  match s with
  | EmptyString => false
  | String _ _ => true
  end.

(** [s || d] for a [string | null] *)
Definition orString (s : option string) (d : string) : string :=
  match s with
  | Some x => if nonEmpty x then x else d
  | None => d
  end.

(** ** Goals page *)

Module Goals.

(** A row of [savings_goals]. The two amounts hold [Number(goal.target_amount)]
    and [Number(goal.current_amount)]. *)
Record SavingsGoal : Type := {
  goal_id : Z;
  user_id : string;
  goal_name : string;
  target_amount : JS.number;
  current_amount : JS.number;
  deadline : option string;
  is_active : bool;
  created_at : string
}.

(** [interface GoalWithCalculations extends SavingsGoal]: [row] carries the
    inherited columns. *)
Record GoalWithCalculations : Type := {
  row : SavingsGoal;
  progress_percentage : JS.number;
  monthly_required_amount : JS.number;
  days_remaining : option Z;
  months_remaining : option Z
}.

Section Calculator.
Context {L : DateLib}.

(** the mutable locals [monthsRemaining], [daysRemaining], [monthlyRequired]
    and [validDeadline] *)
Record Locals : Type := {
  monthsRemaining : option Z;
  daysRemaining : option Z;
  monthlyRequired : JS.number;
  validDeadline : option Date
}.

Definition initialLocals : Locals :=
  {| monthsRemaining := None; daysRemaining := None;
     monthlyRequired := JS.zero; validDeadline := None |}.

(** the block [if (goal.deadline) { ... }] *)
Definition deadlineBlock (today : Date) (goal : SavingsGoal)
    (targetAmount currentAmount : JS.number) : Locals :=
  match deadline goal with
  | Some s =>
      if nonEmpty s then
        match newDate s with
        | Some deadlineDate =>
            let months := differenceInMonths deadlineDate today in
            let days := differenceInDays deadlineDate today in
            {| validDeadline := Some deadlineDate;
               monthsRemaining := Some months;
               daysRemaining := Some days;
               monthlyRequired :=
                 if (0 <? months)%Z then
                   let remaining := JS.sub targetAmount currentAmount in
                   JS.div remaining (JS.ofZ months)
                 else JS.zero |}
        | None => initialLocals
        end
      else initialLocals
  | None => initialLocals
  end.

(** the function mapped over the fetched rows by [fetchGoals]; [today] is the
    [new Date()] taken inside it *)
Definition calculate (today : Date) (goal : SavingsGoal) : GoalWithCalculations :=
  let targetAmount := JS.or (target_amount goal) JS.zero in
  let currentAmount := JS.or (current_amount goal) JS.zero in
  let progress :=
    if JS.gt targetAmount JS.zero
    then JS.mul (JS.div currentAmount targetAmount) JS.hundred
    else JS.zero in
  let l := deadlineBlock today goal targetAmount currentAmount in
  {| row :=
       {| goal_id := goal_id goal;
          user_id := user_id goal;
          goal_name := goal_name goal;
          target_amount := targetAmount;
          current_amount := currentAmount;
          deadline :=
            Some (match validDeadline l with
                  | Some d => slice0 10 (toISOString d)
                  | None => orString (deadline goal) ""
                  end);
          is_active := is_active goal;
          created_at := created_at goal |};
     progress_percentage := JS.min progress JS.hundred;
     monthly_required_amount := JS.max (monthlyRequired l) JS.zero;
     days_remaining := daysRemaining l;
     months_remaining := monthsRemaining l |}.

(** [(data || []).map(...)] *)
Definition goalsWithCalc (today : Date) (data : list SavingsGoal)
  : list GoalWithCalculations :=
  map (calculate today) data.

End Calculator.

(** *** [handleCreateGoal] *)

Record NewGoal : Type := {
  new_goal_name : string;
  new_target_amount : string;
  new_deadline : string
}.

(** the object given to [insert] *)
Record GoalInsert : Type := {
  ins_user_id : string;
  ins_goal_name : string;
  ins_target_amount : JS.number;
  ins_current_amount : JS.number;
  ins_deadline : option string;
  ins_is_active : bool
}.

Inductive Effect : Type :=
| Insert (payload : GoalInsert)      (* supabase.from("savings_goals").insert([...]) *)
| FetchGoals                         (* fetchGoals() *)
| SetTimeout (ms : Z).

(** the page state the handler reads and writes *)
Record State : Type := {
  user : option string;
  newGoal : NewGoal;
  showNewGoalForm : bool;
  error : option string;
  success : bool
}.

(** [handleCreateGoal]; [insertError] is the store's answer to the insert,
    read only when the insert is made. The result is the state after the
    handler and the calls it made, in order. *)
Definition handleCreateGoal (st : State) (insertError : option string)
  : State * list Effect :=
  match user st with
  | None => (st, [])
  | Some uid =>
      let targetAmount := JS.parseFloat (new_target_amount (newGoal st)) in
      if JS.isNaN targetAmount || JS.le targetAmount JS.zero then
        ({| user := user st; newGoal := newGoal st;
            showNewGoalForm := showNewGoalForm st;
            error := Some "目標金額を正しく入力してください";
            success := success st |}, [])
      else
        let payload :=
          {| ins_user_id := uid;
             ins_goal_name := new_goal_name (newGoal st);
             ins_target_amount := targetAmount;
             ins_current_amount := JS.zero;
             ins_deadline :=
               if nonEmpty (new_deadline (newGoal st))
               then Some (new_deadline (newGoal st)) else None;
             ins_is_active := true |} in
        match insertError with
        | Some _ =>
            ({| user := user st; newGoal := newGoal st;
                showNewGoalForm := showNewGoalForm st;
                error := Some "目標の作成に失敗しました";
                success := success st |}, [Insert payload])
        | None =>
            ({| user := user st;
                newGoal := {| new_goal_name := ""; new_target_amount := "";
                              new_deadline := "" |};
                showNewGoalForm := false;
                error := None;
                success := true |},
             [Insert payload; FetchGoals; SetTimeout 3000])
        end
  end.

End Goals.

(** ** Transaction entry pages *)

Module Store.

(** the object the entry pages give to
    [supabase.from("transactions").insert([...])] *)
Record TransactionInsert : Type := {
  user_id : string;
  type : TransactionType.t;
  amount : JS.number;
  category_id : Z;
  memo : option string;
  date : string
}.

Inductive Effect : Type :=
| RouterPush (path : string)
| Insert (payload : TransactionInsert)
| SetTimeout (ms : Z).

(** the store's answer to an insert: [None] for success, else the error's
    [message] *)
Definition Answer : Type := option string.

Definition inserts (effects : list Effect) : list TransactionInsert :=
  omap (λ e, match e with Insert p => Some p | _ => None end) effects.

End Store.

(** *** [src/app/dashboard/input/page.tsx] *)

Module InputPage.
Import Store.

Record State : Type := {
  user : option string;
  transactionType : TransactionType.t;
  amount : string;
  category : string;          (* the name chosen in the select box *)
  note : string;
  date : string;
  loading : bool;
  error : option string;
  success : bool
}.

(** [handleSubmit]; [todayStr] is [new Date().toISOString().split("T")[0]]
    at the time of the reset. *)
Definition handleSubmit (st : State) (answer : Answer) (todayStr : string)
  : State * list Effect :=
  match user st with
  | None => (st, [RouterPush "/login"])
  | Some uid =>
      let amountValue := JS.parseFloat (amount st) in
      if JS.isNaN amountValue || JS.le amountValue JS.zero then
        ({| user := user st; transactionType := transactionType st;
            amount := amount st; category := category st; note := note st;
            date := date st;
            loading := false;
            error := Some "金額を正しく入力してください";
            success := success st |}, [])
      else
        let payload :=
          {| Store.user_id := uid;
             Store.type := transactionType st;
             Store.amount := amountValue;
             Store.category_id := 1;
             Store.memo := if nonEmpty (note st) then Some (note st) else None;
             Store.date := date st |} in
        match answer with
        | Some _ =>
            ({| user := user st; transactionType := transactionType st;
                amount := amount st; category := category st; note := note st;
                date := date st;
                loading := false;
                error := Some "取引の登録に失敗しました";
                success := success st |}, [Insert payload])
        | None =>
            ({| user := user st; transactionType := transactionType st;
                amount := ""; category := ""; note := "";
                date := todayStr;
                loading := false;
                error := None;
                success := true |}, [Insert payload; SetTimeout 1500])
        end
  end.

End InputPage.

(** *** The entry page with the category list ([TransactionInputPage]) *)

Module TransactionInputPage.
Import Store.

Record State : Type := {
  user : option string;
  transactionType : TransactionType.t;
  date : string;
  amount : string;
  categoryId : option Z;      (* [useState<number | null>(null)] *)
  memo : string;
  loading : bool;
  error : option string;
  success : bool
}.

Definition withError (st : State) (msg : string) : State :=
  {| user := user st; transactionType := transactionType st;
     date := date st; amount := amount st; categoryId := categoryId st;
     memo := memo st;
     loading := false; error := Some msg; success := false |}.

(** [handleSubmit]; [todayStr] is [format(new Date(), "yyyy-MM-dd")]. *)
Definition handleSubmit (st : State) (answer : Answer) (todayStr : string)
  : State * list Effect :=
  match user st with
  | None => (st, [])
  | Some uid =>
      let parsedAmount := JS.parseFloat (amount st) in
      if JS.isNaN parsedAmount || JS.lt parsedAmount JS.zero then
        (withError st "金額を正しく入力してください", [])
      else
        match categoryId st with
        | None => (withError st "カテゴリーを選択してください", [])
        | Some cid =>
            let values :=
              {| Store.user_id := uid;
                 Store.type := transactionType st;
                 Store.amount := parsedAmount;
                 Store.category_id := cid;
                 Store.date := date st;
                 Store.memo := if nonEmpty (memo st) then Some (memo st) else None |} in
            match answer with
            | Some message =>
                (withError st ("保存に失敗しました: " ++ message), [Insert values])
            | None =>
                ({| user := user st; transactionType := transactionType st;
                    date := todayStr; amount := ""; categoryId := categoryId st;
                    memo := "";
                    loading := false; error := None; success := true |},
                 [Insert values; SetTimeout 3000])
            end
        end
  end.

End TransactionInputPage.

(** ** A calendar of plain dates

    An instance of [DateLib] on which the calculator can be run: dates are
    year-month-day triples read from [YYYY-MM-DD]. The statements below hold
    for every instance; this one serves the worked examples. *)

Module PlainCalendar.

Definition YMD : Type := (Z * Z * Z)%type.

Definition allDigits (s : string) : option Z :=
  let '(v, n, rest) := JS.takeDigits 0 0 (list_ascii_of_string s) in
  match rest with
  | [] => if (n =? 0)%Z then None else Some v
  | _ :: _ => None
  end.

Definition isDash (c : option ascii) : bool :=
  match c with
  | Some c => Ascii.eqb c "-"
  | None => false
  end.

Definition parse (s : string) : option YMD :=
  if (String.length s =? 10)%nat && isDash (String.get 4 s) && isDash (String.get 7 s)
  then
    match allDigits (substring 0 4 s), allDigits (substring 5 2 s),
          allDigits (substring 8 2 s) with
    | Some y, Some m, Some d =>
        if (1 <=? m)%Z && (m <=? 12)%Z && (1 <=? d)%Z && (d <=? 31)%Z
        then Some (y, m, d) else None
    | _, _, _ => None
    end
  else None.

Definition digitChar (d : Z) : string :=
  String (ascii_of_N (Z.to_N (48 + d mod 10))) EmptyString.

Definition pad2 (n : Z) : string := digitChar (n / 10) ++ digitChar n.

Definition pad4 (n : Z) : string := pad2 (n / 100) ++ pad2 n.

Definition iso (x : YMD) : string :=
  let '(y, m, d) := x in
  pad4 y ++ "-" ++ pad2 m ++ "-" ++ pad2 d ++ "T00:00:00.000Z".

(** whole months from [b] to [a], by year, month and day of the month; the
    library's function also looks at the time of day and at ends of months *)
Definition months (a b : YMD) : Z :=
  let '(ya, ma, da) := a in
  let '(yb, mb, db) := b in
  let total := ((ya - yb) * 12 + (ma - mb))%Z in
  if (0 <? total)%Z && (da <? db)%Z then (total - 1)%Z
  else if (total <? 0)%Z && (db <? da)%Z then (total + 1)%Z
  else total.

(** day number of a civil date *)
Definition dayNumber (x : YMD) : Z :=
  let '(y, m, d) := x in
  let y' := (if (m <=? 2)%Z then y - 1 else y)%Z in
  let era := (y' / 400)%Z in
  let yoe := (y' - era * 400)%Z in
  let mp := ((m + 9) mod 12)%Z in
  let doy := ((153 * mp + 2) / 5 + d - 1)%Z in
  let doe := (yoe * 365 + yoe / 4 - yoe / 100 + doy)%Z in
  (era * 146097 + doe - 719468)%Z.

Definition days (a b : YMD) : Z := (dayNumber a - dayNumber b)%Z.

Definition lib : DateLib :=
  {| Date := YMD; newDate := parse; toISOString := iso;
     differenceInMonths := months; differenceInDays := days |}.

End PlainCalendar.


(** ** Sample rows and form states *)

Module Samples.

Definition today : PlainCalendar.YMD := (2024, 6, 15)%Z.

Definition mkGoal (target current : JS.number) (deadline : option string)
  : Goals.SavingsGoal :=
  {| Goals.goal_id := 1; Goals.user_id := "user-1"; Goals.goal_name := "trip";
     Goals.target_amount := target; Goals.current_amount := current;
     Goals.deadline := deadline; Goals.is_active := true;
     Goals.created_at := "2024-01-01T00:00:00Z" |}.

(** six months ahead of [today] *)
Definition sixMonths : Goals.SavingsGoal :=
  mkGoal (JS.Num 120000) (JS.Num 30000) (Some "2024-12-15").

(** deadline already passed *)
Definition overdue : Goals.SavingsGoal :=
  mkGoal (JS.Num 120000) (JS.Num 30000) (Some "2024-01-31").


Definition noTarget : Goals.SavingsGoal :=
  mkGoal (JS.Num 0) (JS.Num 500) None.

Definition badDeadline : Goals.SavingsGoal :=
  mkGoal (JS.Num 50000) (JS.Num 50000) (Some "someday").

Definition calculate : Goals.SavingsGoal → Goals.GoalWithCalculations :=
  Goals.calculate (L := PlainCalendar.lib) today.

(** the category-list entry page with an amount of 0 typed in *)
Definition zeroAmountForm : TransactionInputPage.State :=
  {| TransactionInputPage.user := Some "user-1";
     TransactionInputPage.transactionType := TransactionType.expense;
     TransactionInputPage.date := "2024-06-15";
     TransactionInputPage.amount := "0";
     TransactionInputPage.categoryId := Some 3%Z;
     TransactionInputPage.memo := "";
     TransactionInputPage.loading := false;
     TransactionInputPage.error := None;
     TransactionInputPage.success := false |}.

(** the plain entry page with the category [c] chosen and 480 typed in *)
Definition fareForm (c : string) : InputPage.State :=
  {| InputPage.user := Some "user-1";
     InputPage.transactionType := TransactionType.expense;
     InputPage.amount := "480";
     InputPage.category := c;
     InputPage.note := "bus";
     InputPage.date := "2024-06-15";
     InputPage.loading := false;
     InputPage.error := None;
     InputPage.success := false |}.

(** the new-goal form filled in *)
Definition newGoalForm : Goals.State :=
  {| Goals.user := Some "user-1";
     Goals.newGoal := {| Goals.new_goal_name := "trip";
                         Goals.new_target_amount := "120000";
                         Goals.new_deadline := "2024-12-15" |};
     Goals.showNewGoalForm := true;
     Goals.error := None;
     Goals.success := false |}.

End Samples.

(** ** History page: the list under the calendar *)

Module HistoryView.
Import History.

(** [getFilteredTransactions]; [selectedDate] is the selected day as
    [format(selectedDate, "yyyy-MM-dd")], [None] when no day is selected *)
Definition getFilteredTransactions (transactions : list Transaction)
    (selectedDate : option string) : list Transaction :=
  match selectedDate with
  | Some dateStr => getTransactionsForDate transactions dateStr
  | None => transactions
  end.

(** One step of the [reduce] that groups by date. The accumulator is a
    [Map<string, Transaction[]>], kept here as the list of its entries in
    insertion order, which is the order [Array.from] reads them in: a new
    date is added at the end with an empty array, and the transaction is
    pushed onto the array of its date. *)
Fixpoint pushTo (acc : list (string * list Transaction)) (d : string)
    (tx : Transaction) : list (string * list Transaction) :=
  match acc with
  | [] => [(d, [tx])]
  | (k, g) :: rest =>
      if decide (k = d) then (k, g ++ [tx])%list :: rest
      else (k, g) :: pushTo rest d tx
  end.

(** [Array.from(filteredTransactions.reduce(..., new Map()))] *)
Definition groupByDate (filteredTransactions : list Transaction)
  : list (string * list Transaction) :=
  fold_left (λ acc tx, pushTo acc (date tx) tx) filteredTransactions [].

(** the amounts of the transactions of type [ty] in a group *)
Definition amountsOf (ty : TransactionType.t) (g : list Transaction)
  : list Binary64.number :=
  amount <$> filter (λ tx, type tx = ty) g.

End HistoryView.

(** ** Goals page: editing, and the guards of a goal card *)

Module GoalsEdit.

(** the [editGoal] form *)
Record EditGoal : Type := {
  goal_name : string;
  target_amount : string;
  current_amount : string;
  deadline : string
}.

(** the object given to [update] by [handleUpdateGoal] *)
Record GoalUpdate : Type := {
  upd_goal_name : string;
  upd_target_amount : JS.number;
  upd_current_amount : JS.number;
  upd_deadline : option string
}.

Inductive Effect : Type :=
| Update (goalId : Z) (payload : GoalUpdate)   (* .update({...}).eq("goal_id", goalId) *)
| FetchGoals
| SetTimeout (ms : Z).

(** the part of the page state these handlers read and write *)
Record State : Type := {
  editingGoal : option Z;
  editGoal : EditGoal;
  error : option string;
  success : bool;
  deleteConfirm : option Z
}.

Definition withError (st : State) (msg : string) : State :=
  {| editingGoal := editingGoal st; editGoal := editGoal st;
     error := Some msg; success := success st;
     deleteConfirm := deleteConfirm st |}.

(** [handleUpdateGoal(goalId)]; [updateError] is the store's answer *)
Definition handleUpdateGoal (st : State) (goalId : Z) (updateError : option string)
  : State * list Effect :=
  let targetAmount := JS.parseFloat (target_amount (editGoal st)) in
  let currentAmount := JS.parseFloat (current_amount (editGoal st)) in
  if JS.isNaN targetAmount || JS.le targetAmount JS.zero then
    (withError st "目標金額を正しく入力してください", [])
  else if JS.isNaN currentAmount || JS.lt currentAmount JS.zero then
    (withError st "現在額を正しく入力してください", [])
  else
    let payload :=
      {| upd_goal_name := goal_name (editGoal st);
         upd_target_amount := targetAmount;
         upd_current_amount := currentAmount;
         upd_deadline := if nonEmpty (deadline (editGoal st))
                         then Some (deadline (editGoal st)) else None |} in
    match updateError with
    | Some _ => (withError st "目標の更新に失敗しました", [Update goalId payload])
    | None =>
        ({| editingGoal := None; editGoal := editGoal st;
            error := None; success := true;
            deleteConfirm := deleteConfirm st |},
         [Update goalId payload; FetchGoals; SetTimeout 3000])
    end.

(** *** The guards a goal card tests

    These are the conditions written in the JSX of a card in display mode,
    not the fact that something is on screen: the card calls
    [format(new Date(goal.deadline), ...)] whenever [goal.deadline] is a
    non-empty string, which throws for a deadline that does not parse, and
    then nothing of the page is rendered. *)

(** the guard [goal.deadline &&] of the deadline line *)
Definition deadlineShown (g : Goals.GoalWithCalculations) : bool :=
  match Goals.deadline (Goals.row g) with
  | Some s => nonEmpty s
  | None => false
  end.

(** [goal.days_remaining !== null && goal.days_remaining >= 0], inside the
    deadline line *)
Definition daysRemainingShown (g : Goals.GoalWithCalculations) : bool :=
  deadlineShown g &&
  match Goals.days_remaining g with
  | Some d => (0 <=? d)%Z
  | None => false
  end.

(** [goal.is_active && goal.deadline && goal.months_remaining !== null &&
    goal.months_remaining > 0] *)
Definition monthlyRequiredShown (g : Goals.GoalWithCalculations) : bool :=
  Goals.is_active (Goals.row g) && deadlineShown g &&
  match Goals.months_remaining g with
  | Some m => (0 <? m)%Z
  | None => false
  end.

(** the guard [goal.progress_percentage >= 100] of the achievement banner *)
Definition achievedShown (g : Goals.GoalWithCalculations) : bool :=
  JS.ge (Goals.progress_percentage g) JS.hundred.

End GoalsEdit.

(** ** History page: the month shown and its calendar grid *)

Module MonthView.
Import PlainCalendar.

Definition isLeapYear (y : Z) : bool :=
  (y mod 4 =? 0)%Z && (negb (y mod 100 =? 0)%Z || (y mod 400 =? 0)%Z).

(** [m] counts from 1 *)
Definition daysInMonth (y m : Z) : Z :=
  if (m =? 2)%Z then (if isLeapYear y then 29 else 28)%Z
  else if (m =? 4)%Z || (m =? 6)%Z || (m =? 9)%Z || (m =? 11)%Z then 30%Z
  else 31%Z.

(** [d.getDay()]: 0 is Sunday; day number 0 (1970-01-01) was a Thursday *)
Definition getDay (x : YMD) : Z := ((dayNumber x + 4) mod 7)%Z.

Definition startOfMonth (x : YMD) : YMD :=
  let '(y, m, _) := x in (y, m, 1%Z).

Definition endOfMonth (x : YMD) : YMD :=
  let '(y, m, _) := x in (y, m, daysInMonth y m).

(** [eachDayOfInterval({ start, end })] for two days of one month *)
Definition eachDayOfInterval (start end_ : YMD) : list YMD :=
  let '(y, m, d1) := start in
  let '(_, _, d2) := end_ in
  (λ k, (y, m, k)) <$> seqZ d1 (d2 - d1 + 1).

(** [generateCalendarDays]: [null] cells up to the weekday of the first, then
    the days of the month *)
Definition generateCalendarDays (currentMonth : YMD) : list (option YMD) :=
  let start := startOfMonth currentMonth in
  let end_ := endOfMonth currentMonth in
  let days := eachDayOfInterval start end_ in
  let firstDayOfWeek := getDay start in
  let blanks := replicate (Z.to_nat firstDayOfWeek) None in
  (blanks ++ (Some <$> days))%list.

(** *** Going to the previous and the next month *)

(** the year a [Date] constructor takes a two-digit year for *)
Definition makeFullYear (y : Z) : Z :=
  if (0 <=? y)%Z && (y <=? 99)%Z then (1900 + y)%Z else y.

(** [new Date(year, monthIndex)], read back as
    [(getFullYear(), getMonth())]: the month index is carried into the year,
    and the result is the Invalid Date ([None]) when the first of that month
    is more than 100,000,000 days from the epoch. *)
Definition newDateYM (year monthIndex : Z) : option (Z * Z) :=
  let y := (makeFullYear year + monthIndex / 12)%Z in
  let m := (monthIndex mod 12)%Z in
  if (Z.abs (dayNumber (y, m + 1, 1)) <=? 100000000)%Z
  then Some (y, m) else None.

(** [currentMonth] as (year, month index), and the selected day *)
Record State : Type := {
  currentMonth : option (Z * Z);
  selectedDate : option string
}.

Definition handlePreviousMonth (st : State) : State :=
  {| currentMonth :=
       match currentMonth st with
       | Some (y, m) => newDateYM y (m - 1)
       | None => None
       end;
     selectedDate := None |}.

Definition handleNextMonth (st : State) : State :=
  {| currentMonth :=
       match currentMonth st with
       | Some (y, m) => newDateYM y (m + 1)
       | None => None
       end;
     selectedDate := None |}.

End MonthView.

(** ** [Number] applied to a string *)

Module JSString.
Import JS.

Definition trim (s : list ascii) : list ascii :=
  rev (skipWhiteSpace (rev (skipWhiteSpace s))).

(** the value of a digit in a radix up to 16 *)
Definition radixDigitOf (radix : Z) (c : ascii) : option Z :=
  let n := Z.of_N (N_of_ascii c) in
  let v :=
    if (48 <=? n)%Z && (n <=? 57)%Z then Some (n - 48)%Z
    else if (97 <=? n)%Z && (n <=? 102)%Z then Some (n - 87)%Z
    else if (65 <=? n)%Z && (n <=? 70)%Z then Some (n - 55)%Z
    else None in
  match v with
  | Some d => if (d <? radix)%Z then Some d else None
  | None => None
  end.

Fixpoint takeRadixDigits (radix acc count : Z) (s : list ascii)
  : Z * Z * list ascii :=
  match s with
  | c :: r =>
      match radixDigitOf radix c with
      | Some d => takeRadixDigits radix (radix * acc + d)%Z (count + 1)%Z r
      | None => (acc, count, s)
      end
  | [] => (acc, count, [])
  end.

Definition radixOf (c : ascii) : option Z :=
  if Ascii.eqb c "x" || Ascii.eqb c "X" then Some 16%Z
  else if Ascii.eqb c "o" || Ascii.eqb c "O" then Some 8%Z
  else if Ascii.eqb c "b" || Ascii.eqb c "B" then Some 2%Z
  else None.

(** [0x..], [0o..], [0b..]: [None] when the text does not start as one *)
Definition nonDecimal (s : list ascii) : option number :=
  match s with
  | "0"%char :: c :: r =>
      match radixOf c with
      | Some radix =>
          let '(v, n, rest) := takeRadixDigits radix 0 0 r in
          match rest with
          | [] => Some (if (n =? 0)%Z then NaN else Num (inject_Z v))
          | _ :: _ => Some NaN
          end
      | None => None
      end
  | _ => None
  end.

(** the exponent part, which must be all that is left: [None] when what is
    left is something else *)
Definition exactExponent (s : list ascii) : option Z :=
  match s with
  | [] => Some 0%Z
  | c :: r =>
      if Ascii.eqb c "e" || Ascii.eqb c "E" then
        let '(minus, r') := takeSign r in
        let '(e, n, rest) := takeDigits 0 0 r' in
        match rest with
        | [] => if (n =? 0)%Z then None else Some (if minus then (- e)%Z else e)
        | _ :: _ => None
        end
      else None
  end.

Definition sameText (a b : list ascii) : bool :=
  isPrefix a b && isPrefix b a.

(** [Number(s)] for a string: the whole text, white space at both ends
    apart, has to be a numeric literal; the empty text is 0. As for
    [parseFloat], the value is kept exact. *)
Definition Number (s : string) : number :=
  let t := trim (list_ascii_of_string s) in
  match t with
  | [] => Num 0
  | _ :: _ =>
      match nonDecimal t with
      | Some v => v
      | None =>
          let '(minus, s2) := takeSign t in
          if sameText (list_ascii_of_string "Infinity") s2 then inf (negb minus)
          else
            let '(ip, ni, s3) := takeDigits 0 0 s2 in
            let '(m, nf, s4) :=
              match s3 with
              | "."%char :: r => takeDigits ip 0 r
              | _ => (ip, 0%Z, s3)
              end in
            if (ni + nf =? 0)%Z then NaN
            else
              match exactExponent s4 with
              | Some e =>
                  let v := (inject_Z m * Qpower 10 (e - nf))%Q in
                  Num (if minus then (- v)%Q else v)
              | None => NaN
              end
      end
  end.

End JSString.

(** ** History page: editing a transaction *)

Module HistoryEdit.

(** the object given to [update] *)
Record TransactionUpdate : Type := {
  upd_amount : JS.number;
  upd_category_id : JS.number;
  upd_date : string
}.

Inductive Effect : Type :=
| Alert (message : string)
| Update (transaction_id : Z) (payload : TransactionUpdate)
| FetchTransactions.

(** the state of the edit dialog *)
Record State : Type := {
  editingTransaction : option History.Transaction;
  editAmount : string;
  editCategoryId : option JS.number;   (* [useState<number | null>(null)] *)
  editDate : string
}.

(** [!editCategoryId] *)
Definition noCategory (c : option JS.number) : bool :=
  match c with
  | Some n => negb (JS.truthy n)
  | None => true
  end.

(** the [onChange] of the category select:
    [setEditCategoryId(Number(e.target.value))] *)
Definition selectCategory (st : State) (value : string) : State :=
  {| editingTransaction := editingTransaction st;
     editAmount := editAmount st;
     editCategoryId := Some (JSString.Number value);
     editDate := editDate st |}.

(** [handleSaveEdit]; [updateError] is the store's answer *)
Definition handleSaveEdit (st : State) (updateError : option string)
  : State * list Effect :=
  match editingTransaction st, editCategoryId st with
  | Some tx, Some categoryId =>
      if nonEmpty (editAmount st) && JS.truthy categoryId && nonEmpty (editDate st)
      then
        let payload :=
          {| upd_amount := JSString.Number (editAmount st);
             upd_category_id := categoryId;
             upd_date := editDate st |} in
        match updateError with
        | Some _ =>
            (st, [Update (History.transaction_id tx) payload;
                  Alert "更新に失敗しました"])
        | None =>
            ({| editingTransaction := None; editAmount := editAmount st;
                editCategoryId := editCategoryId st; editDate := editDate st |},
             [Update (History.transaction_id tx) payload; FetchTransactions])
        end
      else (st, [Alert "すべての項目を入力してください"])
  | _, _ => (st, [Alert "すべての項目を入力してください"])
  end.

End HistoryEdit.

(** ** Entry page with the category list: loading the categories *)

Module CategoryList.

(** a row of [categories] *)
Record CategoryRow : Type := {
  category_id : Z;
  name : string;
  icon : string;
  type : TransactionType.t;
  display_order : Z
}.

(** what the [select] on [categories] came back with: [{ error }],
    [{ data }], or neither *)
Inductive Answer : Type :=
| Failed (message : string)
| Rows (data : list CategoryRow)
| Nothing.

Record State : Type := {
  categories : list CategoryRow;
  categoryId : option Z
}.

(** what [fetchCategories] does with the answer: on rows it stores them and
    selects the first one if there is one *)
Definition fetchCategories (st : State) (answer : Answer) : State :=
  match answer with
  | Failed _ => st
  | Rows cats =>
      {| categories := cats;
         categoryId := match cats with
                       | c :: _ => Some (category_id c)
                       | [] => categoryId st
                       end |}
  | Nothing => st
  end.

(** the entry form with the selection of [st] *)
Definition form (st : State) (uid : string) (ty : TransactionType.t)
    (date amount memo : string) : TransactionInputPage.State :=
  {| TransactionInputPage.user := Some uid;
     TransactionInputPage.transactionType := ty;
     TransactionInputPage.date := date;
     TransactionInputPage.amount := amount;
     TransactionInputPage.categoryId := categoryId st;
     TransactionInputPage.memo := memo;
     TransactionInputPage.loading := false;
     TransactionInputPage.error := None;
     TransactionInputPage.success := false |}.

End CategoryList.

(** ** Login page *)

Module Login.

Inductive TabType : Type := login | signup.

Record State : Type := {
  activeTab : TabType;
  email : string;
  password : string;
  loading : bool;
  error : option string;
  message : option string
}.

Inductive Effect : Type :=
| SignInWithPassword (email password : string)
| SignUp (email password emailRedirectTo : string)
| RouterPush (path : string).

(** [handleLogin]; [authError] is the [error.message] of the answer, if any *)
Definition handleLogin (st : State) (authError : option string)
  : State * list Effect :=
  let call := SignInWithPassword (email st) (password st) in
  match authError with
  | Some msg =>
      ({| activeTab := activeTab st; email := email st; password := password st;
          loading := false; error := Some msg; message := None |}, [call])
  | None =>
      ({| activeTab := activeTab st; email := email st; password := password st;
          loading := true; error := None; message := None |},
       [call; RouterPush "/dashboard"])
  end.

(** [handleSignup]; [origin] is [window.location.origin] *)
Definition handleSignup (st : State) (origin : string) (authError : option string)
  : State * list Effect :=
  let call := SignUp (email st) (password st) (origin ++ "/auth/callback") in
  match authError with
  | Some msg =>
      ({| activeTab := activeTab st; email := email st; password := password st;
          loading := false; error := Some msg; message := None |}, [call])
  | None =>
      ({| activeTab := activeTab st; email := email st; password := password st;
          loading := false; error := None;
          message := Some "確認メールを送信しました。メールを確認してアカウントを有効化してください。" |},
       [call])
  end.

Definition handleTabChange (st : State) (tab : TabType) : State :=
  {| activeTab := tab; email := ""; password := "";
     loading := loading st; error := None; message := None |}.

(** the user's actions on the page, with what the service answered *)
Inductive Action : Type :=
| SubmitLogin (authError : option string)
| SubmitSignup (origin : string) (authError : option string)
| ChangeTab (tab : TabType).

Definition step (st : State) (a : Action) : State * list Effect :=
  match a with
  | SubmitLogin e => handleLogin st e
  | SubmitSignup o e => handleSignup st o e
  | ChangeTab t => (handleTabChange st t, [])
  end.

(** the page as [useState] sets it up *)
Definition initial : State :=
  {| activeTab := login; email := ""; password := "";
     loading := false; error := None; message := None |}.

(** a sequence of actions from a state: the state reached and the calls
    made, in order *)
Fixpoint run (st : State) (actions : list Action) : State * list Effect :=
  match actions with
  | [] => (st, [])
  | a :: rest =>
      let '(st1, e1) := step st a in
      let '(st2, e2) := run st1 rest in
      (st2, (e1 ++ e2)%list)
  end.

End Login.

(** ** More sample data *)

Module ViewSamples.

(** three transactions as the store returns them, latest date first *)
Definition recentFirst : list History.Transaction :=
  [ History.mkTx "2024-06-02" TransactionType.expense 200;
    History.mkTx "2024-06-01" TransactionType.income 1000;
    History.mkTx "2024-06-01" TransactionType.expense 300 ].

(** [a] is not before [b] as text, which for [yyyy-MM-dd] is by date *)
Definition notBefore (a b : string) : Prop := String.leb b a = true.

Definition reached : Goals.SavingsGoal :=
  Samples.mkGoal (JS.Num 50000) (JS.Num 50000) (Some "2024-12-15").

Definition halfway : Goals.SavingsGoal :=
  Samples.mkGoal (JS.Num 120000) (JS.Num 60000) (Some "2024-12-15").

Definition editForm : GoalsEdit.State :=
  {| GoalsEdit.editingGoal := Some 1%Z;
     GoalsEdit.editGoal :=
       {| GoalsEdit.goal_name := "trip";
          GoalsEdit.target_amount := "120000";
          GoalsEdit.current_amount := "30000";
          GoalsEdit.deadline := "2024-12-15" |};
     GoalsEdit.error := None;
     GoalsEdit.success := false;
     GoalsEdit.deleteConfirm := None |}.

Definition editedPayload : GoalsEdit.GoalUpdate :=
  {| GoalsEdit.upd_goal_name := "trip";
     GoalsEdit.upd_target_amount := JS.Num 120000;
     GoalsEdit.upd_current_amount := JS.Num 30000;
     GoalsEdit.upd_deadline := Some "2024-12-15" |}.

Definition january2024 : MonthView.State :=
  {| MonthView.currentMonth := Some (2024, 0)%Z;
     MonthView.selectedDate := Some "2024-01-15" |}.

Definition editDialog : HistoryEdit.State :=
  {| HistoryEdit.editingTransaction :=
       Some (History.mkTx "2024-06-01" TransactionType.expense 300);
     HistoryEdit.editAmount := "350";
     HistoryEdit.editCategoryId := Some (JS.Num 3);
     HistoryEdit.editDate := "2024-06-02" |}.

Definition editedTransaction : HistoryEdit.TransactionUpdate :=
  {| HistoryEdit.upd_amount := JS.Num 350;
     HistoryEdit.upd_category_id := JS.Num 3;
     HistoryEdit.upd_date := "2024-06-02" |}.

Definition fareInsert : Store.TransactionInsert :=
  {| Store.user_id := "user-1";
     Store.type := TransactionType.expense;
     Store.amount := JS.Num 480;
     Store.category_id := 1;
     Store.memo := Some "bus";
     Store.date := "2024-06-15" |}.

Definition zeroInsert : Store.TransactionInsert :=
  {| Store.user_id := "user-1";
     Store.type := TransactionType.expense;
     Store.amount := JS.Num 0;
     Store.category_id := 3;
     Store.date := "2024-06-15";
     Store.memo := None |}.

Definition food : CategoryList.CategoryRow :=
  {| CategoryList.category_id := 7; CategoryList.name := "food";
     CategoryList.icon := "*"; CategoryList.type := TransactionType.expense;
     CategoryList.display_order := 1 |}.

Definition noSelection : CategoryList.State :=
  {| CategoryList.categories := []; CategoryList.categoryId := None |}.

Definition foodInsert : Store.TransactionInsert :=
  {| Store.user_id := "user-1";
     Store.type := TransactionType.expense;
     Store.amount := JS.Num 480;
     Store.category_id := 7;
     Store.date := "2024-06-15";
     Store.memo := None |}.

Definition tripInsert : Goals.GoalInsert :=
  {| Goals.ins_user_id := "user-1";
     Goals.ins_goal_name := "trip";
     Goals.ins_target_amount := JS.Num 120000;
     Goals.ins_current_amount := JS.zero;
     Goals.ins_deadline := Some "2024-12-15";
     Goals.ins_is_active := true |}.

Definition fresh : Goals.SavingsGoal :=
  Samples.mkGoal (JS.Num 120000) JS.zero (Some "2024-12-15").

(** a wrong password, then the right one *)
Definition secondTry : list Login.Action :=
  [ Login.SubmitLogin (Some "Invalid login credentials");
    Login.SubmitLogin None ].

End ViewSamples.

(** * Properties *)

(** ** Daily totals *)

Section DailyTotals.
Import History.

Lemma sum_snoc (l : list Binary64.number) (a : Binary64.number) :
  sum (l ++ [a]) = Binary64.add (sum l) a.
Proof. unfold sum. now rewrite fold_left_app. Qed.

Lemma dailyTotals_snoc (txs : list Transaction) (tx : Transaction) :
  dailyTotals (txs ++ [tx]) = accumulate (dailyTotals txs) tx.
Proof. unfold dailyTotals. now rewrite fold_left_app. Qed.

Lemma amountsOn_snoc ty d (txs : list Transaction) tx :
  amountsOn ty d (txs ++ [tx]) =
  (amountsOn ty d txs ++
    (if decide (date tx = d) then
       if decide (type tx = ty) then [amount tx] else []
     else []))%list.
Proof.
  unfold amountsOn, getTransactionsForDate.
  rewrite filter_app, filter_app, fmap_app. f_equal.
  rewrite filter_cons, filter_nil.
  destruct (decide (date tx = d)); [|reflexivity].
  rewrite filter_cons, filter_nil.
  destruct (decide (type tx = ty)); reflexivity.
Qed.

Lemma amountsOn_absent ty d (txs : list Transaction) :
  d ∉ date <$> txs → amountsOn ty d txs = [].
Proof.
  intros Hd. unfold amountsOn, getTransactionsForDate.
  induction txs as [|tx txs IH]; [reflexivity|].
  rewrite fmap_cons, not_elem_of_cons in Hd. destruct Hd as [Hne Hd].
  rewrite filter_cons. destruct (decide (date tx = d)); [congruence|].
  now apply IH.
Qed.

Lemma totalOn_absent d (txs : list Transaction) :
  d ∉ date <$> txs →
  totalOn d txs = {| income := Binary64.zero; expense := Binary64.zero;
                     net := Binary64.zero |}.
Proof.
  intros Hd. unfold totalOn. now rewrite !amountsOn_absent.
Qed.

Lemma dailyTotals_lookup (txs : list Transaction) (d : string) :
  dailyTotals txs !! d =
  if decide (d ∈ date <$> txs) then Some (totalOn d txs) else None.
Proof.
  induction txs as [|tx txs IH] using rev_ind.
  - reflexivity.
  - rewrite dailyTotals_snoc. unfold accumulate.
    assert (Hex : default {| income := Binary64.zero; expense := Binary64.zero;
                             net := Binary64.zero |}
                    (dailyTotals txs !! d) = totalOn d txs).
    { rewrite IH. destruct (decide (d ∈ date <$> txs)); [reflexivity|].
      symmetry. now apply totalOn_absent. }
    destruct (decide (date tx = d)) as [<-|Hne].
    + rewrite decide_True
        by (rewrite fmap_app, elem_of_app; right; apply list_elem_of_singleton;
            reflexivity).
      rewrite Hex. unfold totalOn. rewrite !amountsOn_snoc.
      destruct (type tx); rewrite lookup_insert_eq;
        repeat case_decide; try congruence;
        cbn [income expense]; rewrite ?sum_snoc, ?app_nil_r; reflexivity.
    + assert (Hdom : d ∈ date <$> (txs ++ [tx])%list ↔ d ∈ date <$> txs)
        by (rewrite fmap_app, elem_of_app; cbn; rewrite list_elem_of_singleton;
            intuition congruence).
      destruct (type tx); rewrite lookup_insert_ne by assumption;
        rewrite IH; unfold totalOn;
        rewrite !amountsOn_snoc, !(decide_False _ _ Hne), !app_nil_r;
        repeat case_decide; tauto.
Qed.

Lemma getTransactionsForDate_idem (txs : list Transaction) (d : string) :
  getTransactionsForDate (getTransactionsForDate txs d) d =
  getTransactionsForDate txs d.
Proof.
  unfold getTransactionsForDate. induction txs as [|tx txs IH]; [reflexivity|].
  rewrite filter_cons. destruct (decide (date tx = d)) as [Heq|Hne].
  - rewrite filter_cons, decide_True by assumption. now rewrite IH.
  - exact IH.
Qed.

Lemma getTransactionsForDate_dates (txs : list Transaction) (d : string) :
  d ∈ date <$> getTransactionsForDate txs d ↔ d ∈ date <$> txs.
Proof.
  unfold getTransactionsForDate. rewrite !list_elem_of_fmap. split.
  - intros (tx & Hd & Hin). apply list_elem_of_filter in Hin. exists tx. tauto.
  - intros (tx & Hd & Hin). exists tx. split; [assumption|].
    apply list_elem_of_filter. split; [congruence | assumption].
Qed.

(** C5. For every transaction list and every date, the daily totals hold a
    bucket for the date exactly when a transaction has that date, and the
    bucket's income and expense are the sums of the amounts of the income and
    of the expense transactions of that date, added from 0 in list order as
    binary64 numbers, its net being income minus expense. A bucket is
    computed from the transactions of its own date alone, so no transaction
    contributes to the bucket of another date. On the June scenario the
    totals are [1000, 300, 700] for 2024-06-01 and [0, 200, -200] for
    2024-06-02, and nothing else. *)
Theorem daily_totals_are_sums_per_date :
  (∀ (txs : list Transaction) (d : string),
      dailyTotals txs !! d =
      if decide (d ∈ date <$> txs)
      then Some {| income := sum (amountsOn TransactionType.income d txs);
                   expense := sum (amountsOn TransactionType.expense d txs);
                   net := Binary64.sub
                            (sum (amountsOn TransactionType.income d txs))
                            (sum (amountsOn TransactionType.expense d txs)) |}
      else None)
  ∧ (∀ (txs : list Transaction) (d : string),
      dailyTotals txs !! d = dailyTotals (getTransactionsForDate txs d) !! d)
  ∧ dailyTotals juneScenario =
      {[ "2024-06-01" := {| income := 1000%float; expense := 300%float;
                            net := 700%float |};
         "2024-06-02" := {| income := 0%float; expense := 200%float;
                            net := (-200)%float |} ]}.
Proof.
  split; [|split].
  - intros txs d. apply dailyTotals_lookup.
  - intros txs d. rewrite !dailyTotals_lookup.
    pose proof (getTransactionsForDate_dates txs d) as Hd.
    assert (Ht : totalOn d (getTransactionsForDate txs d) = totalOn d txs).
    { unfold totalOn, amountsOn. now rewrite getTransactionsForDate_idem. }
    rewrite Ht. repeat case_decide; tauto.
  - apply map_eq. intros d.
    unfold juneScenario, dailyTotals; cbn [fold_left].
    unfold accumulate; cbn [date type amount mkTx withAmount].
    destruct (decide (d = "2024-06-01")) as [->|H1];
      [reflexivity|].
    destruct (decide (d = "2024-06-02")) as [->|H2];
      [reflexivity|].
    repeat (rewrite lookup_insert_ne by congruence).
    rewrite lookup_singleton_ne by congruence. reflexivity.
Qed.




End DailyTotals.

(** ** Comparisons and the two clamps *)

Lemma Qltb_lt (a b : Q) : JS.Qltb a b = true ↔ (a < b)%Q.
Proof.
  unfold JS.Qltb. rewrite negb_true_iff, <- not_true_iff_false, Qle_bool_iff.
  split; [apply Qnot_le_lt | apply Qlt_not_le].
Qed.

Lemma js_lt_le (x y : JS.number) : JS.lt x y = true → JS.le x y = true.
Proof.
  destruct x, y; simpl; try congruence.
  rewrite Qltb_lt, Qle_bool_iff. apply Qlt_le_weak.
Qed.

Lemma js_min_le_r (x y : JS.number) :
  JS.isNaN x = false → JS.le y y = true → JS.le (JS.min x y) y = true.
Proof.
  intros Hx Hy. unfold JS.min. rewrite Hx. simpl.
  destruct (JS.isNaN y) eqn:Hn; [destruct y; discriminate|].
  destruct (JS.le x y) eqn:Hle; assumption.
Qed.

Lemma js_max_not_below (x y : JS.number) : JS.lt (JS.max x y) y = false.
Proof.
  unfold JS.max. destruct (JS.isNaN x || JS.isNaN y) eqn:Hn; [reflexivity|].
  apply orb_false_elim in Hn as [Hx Hy].
  destruct (JS.le x y) eqn:Hle.
  - destruct y; try reflexivity. simpl.
    apply not_true_iff_false. rewrite Qltb_lt. apply Qlt_irrefl.
  - apply not_true_iff_false. intros Hlt. apply js_lt_le in Hlt. congruence.
Qed.

Lemma js_or_zero_not_NaN (x : JS.number) : JS.isNaN (JS.or x JS.zero) = false.
Proof. unfold JS.or. destruct x; simpl; try reflexivity. now destruct (Qeq_bool q 0). Qed.

Lemma js_or_zero_falsy (x : JS.number) :
  JS.truthy x = false → JS.or x JS.zero = JS.zero.
Proof. unfold JS.or. now intros ->. Qed.

Lemma js_truthy_false (x : JS.number) :
  JS.truthy x = false ↔ x = JS.NaN ∨ ∃ q, x = JS.Num q ∧ (q == 0)%Q.
Proof.
  destruct x; simpl; split; try discriminate; try tauto; try (now left).
  - intros [H|(q & H & _)]; discriminate.
  - intros [H|(q & H & _)]; discriminate.
  - rewrite negb_false_iff, Qeq_bool_iff. intros H. right. now exists q.
  - intros [H|(q' & [= <-] & H)]; [discriminate|].
    now rewrite negb_false_iff, Qeq_bool_iff.
Qed.

(** ** The goal calculator *)

Section GoalCalculator.
Import Goals.

(** the percentage before the upper clamp, for a positive finite target *)
Lemma raw_progress_cases (c : JS.number) (tq : Q) :
  (0 < tq)%Q → JS.isNaN c = false →
  let p := JS.mul (JS.div c (JS.Num tq)) JS.hundred in
  JS.isNaN p = false ∧ (JS.le JS.zero c = true → JS.le JS.zero p = true).
Proof.
  intros Ht Hc p. subst p.
  assert (Hle : Qle_bool 0 tq = true) by (apply Qle_bool_iff, Qlt_le_weak, Ht).
  assert (Hne : Qeq_bool tq 0 = false).
  { apply not_true_iff_false. rewrite Qeq_bool_iff. intros E.
    rewrite E in Ht. now apply Qlt_irrefl in Ht. }
  destruct c as [| | |cq]; simpl in *; try discriminate.
  - rewrite Hle. simpl. split; reflexivity.
  - rewrite Hle. simpl. split; [reflexivity | discriminate].
  - rewrite Hne. simpl. split; [reflexivity|].
    rewrite !Qle_bool_iff. intros Hc0.
    apply Qmult_le_0_compat; [|discriminate].
    apply Qmult_le_0_compat; [assumption|].
    apply Qinv_le_0_compat, Qlt_le_weak, Ht.
Qed.

Lemma js_gt_zero_finite (t : JS.number) :
  JS.gt t JS.zero = true → JS.isInfinite t = false → ∃ tq, t = JS.Num tq ∧ (0 < tq)%Q.
Proof.
  destruct t as [| | |tq]; simpl; try discriminate.
  intros H _. exists tq. split; [reflexivity|]. now apply Qltb_lt.
Qed.

Lemma js_or_zero_infinite (x : JS.number) :
  JS.isInfinite (JS.or x JS.zero) = JS.isInfinite x.
Proof. unfold JS.or. destruct x; simpl; try reflexivity. now destruct (Qeq_bool q 0). Qed.







Lemma deadlineBlock_parsed {L : DateLib} (today : Date) (goal : SavingsGoal)
    (t c : JS.number) (s : string) (d : Date) :
  deadline goal = Some s → nonEmpty s = true → newDate s = Some d →
  deadlineBlock today goal t c =
  {| validDeadline := Some d;
     monthsRemaining := Some (differenceInMonths d today);
     daysRemaining := Some (differenceInDays d today);
     monthlyRequired :=
       if (0 <? differenceInMonths d today)%Z
       then JS.div (JS.sub t c) (JS.ofZ (differenceInMonths d today))
       else JS.zero |}.
Proof. intros Hd Hs Hp. unfold deadlineBlock. now rewrite Hd, Hs, Hp. Qed.

Lemma deadlineBlock_unusable {L : DateLib} (today : Date) (goal : SavingsGoal)
    (t c : JS.number) :
  deadline goal = None
  ∨ deadline goal = Some ""
  ∨ (∃ s, deadline goal = Some s ∧ newDate s = None) →
  deadlineBlock today goal t c = initialLocals.
Proof.
  unfold deadlineBlock. intros [->|[->|(s & -> & Hp)]]; try reflexivity.
  rewrite Hp. now destruct (nonEmpty s).
Qed.

(** C2. When the deadline parses, [months_remaining] is the month difference
    [m] between the deadline and today. If [m <= 0] the monthly required
    amount is 0; if [m > 0] it is [max((target - current) / m, 0)]. In both
    cases it is not below 0. *)
Theorem monthly_required_amount_by_months {L : DateLib} (today : Date)
    (goal : SavingsGoal) (s : string) (d : Date) :
  deadline goal = Some s → nonEmpty s = true → newDate s = Some d →
  let m := differenceInMonths d today in
  let t := JS.or (target_amount goal) JS.zero in
  let c := JS.or (current_amount goal) JS.zero in
  let out := calculate today goal in
  months_remaining out = Some m
  ∧ ((m ≤ 0)%Z → monthly_required_amount out = JS.zero)
  ∧ ((0 < m)%Z →
     monthly_required_amount out = JS.max (JS.div (JS.sub t c) (JS.ofZ m)) JS.zero)
  ∧ JS.lt (monthly_required_amount out) JS.zero = false.
Proof.
  intros Hd Hs Hp m t c out. subst out. unfold calculate.
  cbn [months_remaining monthly_required_amount]. fold t c.
  rewrite (deadlineBlock_parsed today goal t c s d Hd Hs Hp).
  cbn [monthsRemaining monthlyRequired]. fold m.
  split; [reflexivity|]. split; [|split].
  - intros Hm. apply Z.ltb_ge in Hm. now rewrite Hm.
  - intros Hm. apply Z.ltb_lt in Hm. now rewrite Hm.
  - apply js_max_not_below.
Qed.

Lemma monthly_required_amount_by_months_witness :
  months_remaining (Samples.calculate Samples.sixMonths) = Some 6%Z
  ∧ months_remaining (Samples.calculate Samples.overdue) = Some (-4)%Z
  ∧ monthly_required_amount (Samples.calculate Samples.overdue) = JS.zero.
Proof.
  pose proof (monthly_required_amount_by_months (L := PlainCalendar.lib)
                Samples.today Samples.sixMonths "2024-12-15" (2024, 12, 15)%Z
                eq_refl eq_refl eq_refl) as H6.
  pose proof (monthly_required_amount_by_months (L := PlainCalendar.lib)
                Samples.today Samples.overdue "2024-01-31" (2024, 1, 31)%Z
                eq_refl eq_refl eq_refl) as H4.
  split; [exact (proj1 H6)|]. split; [exact (proj1 H4)|].
  apply (proj1 (proj2 H4)). vm_compute. discriminate.
Defined.

(** C3. When the deadline is absent (null or empty) or does not parse, the
    derived record has no [months_remaining], no [days_remaining], and a
    monthly required amount of 0. *)
Theorem no_deadline_no_time_fields {L : DateLib} (today : Date)
    (goal : SavingsGoal) :
  deadline goal = None
  ∨ deadline goal = Some ""
  ∨ (∃ s, deadline goal = Some s ∧ newDate s = None) →
  months_remaining (calculate today goal) = None
  ∧ days_remaining (calculate today goal) = None
  ∧ monthly_required_amount (calculate today goal) = JS.zero.
Proof.
  intros H. unfold calculate.
  cbn [months_remaining days_remaining monthly_required_amount].
  rewrite (deadlineBlock_unusable _ _ _ _ H). repeat split; reflexivity.
Qed.

Lemma no_deadline_no_time_fields_witness :
  months_remaining (Samples.calculate Samples.badDeadline) = None
  ∧ days_remaining (Samples.calculate Samples.badDeadline) = None
  ∧ monthly_required_amount (Samples.calculate Samples.badDeadline) = JS.zero.
Proof.
  apply (no_deadline_no_time_fields (L := PlainCalendar.lib)).
  right. right. exists "someday". split; reflexivity.
Defined.

(** C4. When the target amount is 0, or is [NaN] and so coerced to 0, the
    progress percentage is exactly 0, whatever the current amount is. *)
Theorem zero_target_zero_progress {L : DateLib} (today : Date)
    (goal : SavingsGoal) :
  target_amount goal = JS.NaN
  ∨ (∃ q, target_amount goal = JS.Num q ∧ (q == 0)%Q) →
  progress_percentage (calculate today goal) = JS.zero.
Proof.
  intros H. apply js_truthy_false, js_or_zero_falsy in H.
  unfold calculate; cbn [progress_percentage]. rewrite H. reflexivity.
Qed.

Lemma zero_target_zero_progress_witness :
  progress_percentage (Samples.calculate Samples.noTarget) = JS.zero.
Proof.
  apply (zero_target_zero_progress (L := PlainCalendar.lib)).
  right. exists 0%Q. split; reflexivity.
Defined.

(** C9. When the stored deadline is a string that does not parse, the output
    record carries that same string as its deadline, the other stored columns
    are those of the row (the two amounts after coercion), and the two time
    fields are null. *)
Theorem unparseable_deadline_kept {L : DateLib} (today : Date)
    (goal : SavingsGoal) (s : string) :
  deadline goal = Some s → newDate s = None →
  let out := calculate today goal in
  deadline (row out) = Some s
  ∧ goal_id (row out) = goal_id goal
  ∧ user_id (row out) = user_id goal
  ∧ goal_name (row out) = goal_name goal
  ∧ is_active (row out) = is_active goal
  ∧ created_at (row out) = created_at goal
  ∧ months_remaining out = None
  ∧ days_remaining out = None.
Proof.
  intros Hd Hp out. subst out. unfold calculate.
  cbn [row deadline goal_id user_id goal_name is_active created_at
       months_remaining days_remaining].
  rewrite (deadlineBlock_unusable today goal _ _)
    by (right; right; exists s; split; assumption).
  cbn [validDeadline monthsRemaining daysRemaining initialLocals].
  rewrite Hd. unfold orString. destruct s; repeat split; reflexivity.
Qed.

Lemma unparseable_deadline_kept_witness :
  deadline (row (Samples.calculate Samples.badDeadline)) = Some "someday"
  ∧ months_remaining (Samples.calculate Samples.badDeadline) = None.
Proof.
  pose proof (unparseable_deadline_kept (L := PlainCalendar.lib)
                Samples.today Samples.badDeadline "someday" eq_refl eq_refl) as H.
  split; [exact (proj1 H) | exact (proj1 (proj2 (proj2 (proj2 (proj2 (proj2 (proj2 H)))))))].
Defined.

End GoalCalculator.

(** ** The entry forms *)

Lemma js_validation_positive (x : JS.number) :
  JS.isNaN x || JS.le x JS.zero = negb (JS.gt x JS.zero).
Proof.
  destruct x as [| | |q]; try reflexivity. simpl. unfold JS.Qltb.
  now rewrite negb_involutive.
Qed.

Lemma js_validation_nonnegative (x : JS.number) :
  JS.isNaN x || JS.lt x JS.zero = negb (JS.ge x JS.zero).
Proof. destruct x as [| | |q]; reflexivity. Qed.

(** the plain entry page accepts only amounts above 0: any other input gives
    the inline message and no call *)
Lemma InputPage_rejects_non_positive (st : InputPage.State)
    (answer : Store.Answer) (todayStr uid : string) :
  InputPage.user st = Some uid →
  JS.gt (JS.parseFloat (InputPage.amount st)) JS.zero = false →
  snd (InputPage.handleSubmit st answer todayStr) = []
  ∧ InputPage.error (fst (InputPage.handleSubmit st answer todayStr))
    = Some "金額を正しく入力してください".
Proof.
  intros Hu Hgt. unfold InputPage.handleSubmit.
  rewrite Hu, js_validation_positive, Hgt. split; reflexivity.
Qed.

(** the category-list entry page lets through every amount that is at least
    0, zero included *)
Lemma TransactionInputPage_accepts_non_negative (st : TransactionInputPage.State)
    (answer : Store.Answer) (todayStr uid : string) (cid : Z) :
  TransactionInputPage.user st = Some uid →
  TransactionInputPage.categoryId st = Some cid →
  JS.ge (JS.parseFloat (TransactionInputPage.amount st)) JS.zero = true →
  Store.inserts (snd (TransactionInputPage.handleSubmit st answer todayStr)) =
  [ {| Store.user_id := uid;
       Store.type := TransactionInputPage.transactionType st;
       Store.amount := JS.parseFloat (TransactionInputPage.amount st);
       Store.category_id := cid;
       Store.date := TransactionInputPage.date st;
       Store.memo := if nonEmpty (TransactionInputPage.memo st)
                     then Some (TransactionInputPage.memo st) else None |} ].
Proof.
  intros Hu Hc Hge. unfold TransactionInputPage.handleSubmit.
  rewrite Hu, js_validation_nonnegative, Hge, Hc. simpl.
  destruct answer; reflexivity.
Qed.

(** C7, at the input where the code departs from it. On the category-list
    entry page an amount of "0" parses to 0, which is not above 0, and yet
    the handler shows no message and sends the insert, with amount 0. *)
Theorem zero_amount_passes_validation :
  JS.gt (JS.parseFloat (TransactionInputPage.amount Samples.zeroAmountForm))
        JS.zero = false
  ∧ TransactionInputPage.error
      (fst (TransactionInputPage.handleSubmit Samples.zeroAmountForm None "2024-06-15"))
    = None
  ∧ Store.inserts
      (snd (TransactionInputPage.handleSubmit Samples.zeroAmountForm None "2024-06-15"))
    = [ {| Store.user_id := "user-1";
           Store.type := TransactionType.expense;
           Store.amount := JS.Num 0;
           Store.category_id := 3;
           Store.date := "2024-06-15";
           Store.memo := None |} ].
Proof. repeat split; reflexivity. Qed.

(** C8, where the code departs from it. On the plain entry page every insert
    carries category id 1: the chosen category does not reach the payload, and
    two submissions that differ only in the chosen category send the same
    insert. *)
Theorem category_id_is_always_one :
  (∀ (st : InputPage.State) (answer : Store.Answer) (todayStr : string),
      Forall (λ p, Store.category_id p = 1%Z)
             (Store.inserts (snd (InputPage.handleSubmit st answer todayStr))))
  ∧ Store.inserts (snd (InputPage.handleSubmit (Samples.fareForm "交通費") None "2024-06-15"))
    = [ {| Store.user_id := "user-1";
           Store.type := TransactionType.expense;
           Store.amount := JS.Num 480;
           Store.category_id := 1;
           Store.memo := Some "bus";
           Store.date := "2024-06-15" |} ]
  ∧ snd (InputPage.handleSubmit (Samples.fareForm "交通費") None "2024-06-15")
    = snd (InputPage.handleSubmit (Samples.fareForm "食費") None "2024-06-15").
Proof.
  split; [|split; reflexivity].
  intros st answer todayStr. unfold InputPage.handleSubmit.
  destruct (InputPage.user st); [|constructor].
  destruct (_ || _); [constructor|].
  destruct answer; repeat constructor.
Qed.

(** the category-list entry page does send the chosen category *)
Lemma TransactionInputPage_sends_chosen_category (st : TransactionInputPage.State)
    (answer : Store.Answer) (todayStr : string) :
  Forall (λ p, TransactionInputPage.categoryId st = Some (Store.category_id p))
         (Store.inserts (snd (TransactionInputPage.handleSubmit st answer todayStr))).
Proof.
  unfold TransactionInputPage.handleSubmit.
  destruct (TransactionInputPage.user st); [|constructor].
  destruct (_ || _); [constructor|].
  destruct (TransactionInputPage.categoryId st); [|constructor].
  destruct answer; repeat constructor.
Qed.

(** C10. Whenever [handleCreateGoal] gets past its checks (a signed-in user,
    a target that parses to a number above 0), its first call is the insert
    of a goal with [current_amount] 0 and [is_active] true; and no insert it
    ever sends has other values there. *)
Theorem new_goal_starts_at_zero_and_active (st : Goals.State)
    (insertError : option string) (uid : string) :
  Goals.user st = Some uid →
  JS.gt (JS.parseFloat (Goals.new_target_amount (Goals.newGoal st))) JS.zero = true →
  (∃ rest,
     snd (Goals.handleCreateGoal st insertError) =
     Goals.Insert
       {| Goals.ins_user_id := uid;
          Goals.ins_goal_name := Goals.new_goal_name (Goals.newGoal st);
          Goals.ins_target_amount :=
            JS.parseFloat (Goals.new_target_amount (Goals.newGoal st));
          Goals.ins_current_amount := JS.zero;
          Goals.ins_deadline := if nonEmpty (Goals.new_deadline (Goals.newGoal st))
                                then Some (Goals.new_deadline (Goals.newGoal st))
                                else None;
          Goals.ins_is_active := true |} :: rest)
  ∧ (∀ (st' : Goals.State) (answer : option string) (p : Goals.GoalInsert),
       In (Goals.Insert p) (snd (Goals.handleCreateGoal st' answer)) →
       Goals.ins_current_amount p = JS.zero ∧ Goals.ins_is_active p = true).
Proof.
  intros Hu Hgt. split.
  - unfold Goals.handleCreateGoal. rewrite Hu, js_validation_positive, Hgt. simpl.
    destruct insertError; eexists; reflexivity.
  - intros st' answer p. unfold Goals.handleCreateGoal.
    destruct (Goals.user st'); [|intros []].
    destruct (_ || _); [intros []|].
    destruct answer; simpl; intros H;
      repeat (destruct H as [H|H]; [try discriminate; injection H as <-; split; reflexivity|]);
      destruct H.
Qed.

Lemma new_goal_starts_at_zero_and_active_witness :
  ∃ rest,
    snd (Goals.handleCreateGoal Samples.newGoalForm None) =
    Goals.Insert
      {| Goals.ins_user_id := "user-1";
         Goals.ins_goal_name := "trip";
         Goals.ins_target_amount := JS.parseFloat "120000";
         Goals.ins_current_amount := JS.zero;
         Goals.ins_deadline := Some "2024-12-15";
         Goals.ins_is_active := true |} :: rest.
Proof.
  exact (proj1 (new_goal_starts_at_zero_and_active
                  Samples.newGoalForm None "user-1" eq_refl eq_refl)).
Defined.

(** ** The grouped list of the history page *)

Section GroupedList.
Import History HistoryView.

Lemma groupByDate_snoc (txs : list Transaction) (tx : Transaction) :
  groupByDate (txs ++ [tx]) = pushTo (groupByDate txs) (date tx) tx.
Proof. unfold groupByDate. now rewrite fold_left_app. Qed.

Lemma pushTo_keys (acc : list (string * list Transaction)) d tx :
  (pushTo acc d tx).*1 =
  if decide (d ∈ acc.*1) then acc.*1 else (acc.*1 ++ [d])%list.
Proof.
  induction acc as [|[k g] acc IH]; cbn [pushTo fmap list_fmap fst].
  - rewrite decide_False by apply not_elem_of_nil. reflexivity.
  - destruct (decide (k = d)) as [->|Hne].
    + rewrite decide_True by apply list_elem_of_here. reflexivity.
    + cbn [fmap list_fmap fst]. fold (acc.*1). fold ((pushTo acc d tx).*1).
      rewrite IH. destruct (decide (d ∈ acc.*1)) as [Hin|Hnin].
      * rewrite decide_True by (now apply list_elem_of_further). reflexivity.
      * rewrite decide_False; [reflexivity|].
        rewrite elem_of_cons. intros [?|?]; congruence.
Qed.

Lemma pushTo_elem (acc : list (string * list Transaction)) d tx d' g' :
  NoDup (acc.*1) →
  (d', g') ∈ pushTo acc d tx ↔
  (d' ≠ d ∧ (d', g') ∈ acc)
  ∨ (d' = d ∧ ((∃ g, (d, g) ∈ acc ∧ g' = (g ++ [tx])%list)
               ∨ ((d ∉ fst <$> acc) ∧ g' = [tx]))).
Proof.
  induction acc as [|[k g] acc IH]; cbn [pushTo]; intros Hnd.
  - rewrite list_elem_of_singleton. split.
    + intros [= -> ->]. right. split; [reflexivity|]. right.
      split; [apply not_elem_of_nil | reflexivity].
    + intros [[_ H]|[-> [(g & H & _)|[_ ->]]]].
      * now apply not_elem_of_nil in H.
      * now apply not_elem_of_nil in H.
      * reflexivity.
  - cbn [fmap list_fmap fst] in Hnd. fold (acc.*1) in Hnd.
    apply NoDup_cons in Hnd as [Hk Hnd]. specialize (IH Hnd).
    assert (Hkey : ∀ x, (k, x) ∈ acc → False).
    { intros x Hx. apply Hk. apply list_elem_of_fmap. now exists (k, x). }
    destruct (decide (k = d)) as [->|Hne].
    + rewrite !elem_of_cons. split.
      * intros [Heq|Hin].
        -- injection Heq as -> ->. right. split; [reflexivity|]. left.
           exists g. rewrite elem_of_cons. split; [now left | reflexivity].
        -- left. split; [|now right]. intros ->. eapply Hkey, Hin.
      * intros [[Hd [Heq|Hin]]|[-> [(g0 & Hin & ->)|[Hnin _]]]].
        -- injection Heq as -> ->. congruence.
        -- now right.
        -- apply elem_of_cons in Hin as [Heq|Hin].
           ++ injection Heq as ->. now left.
           ++ exfalso. eapply Hkey, Hin.
        -- exfalso. apply Hnin. cbn. apply list_elem_of_here.
    + rewrite !elem_of_cons, IH. cbn [fmap list_fmap fst]. fold (acc.*1).
      rewrite not_elem_of_cons. split.
      * intros [Heq|[[Hd Hin]|[-> Hcase]]].
        -- injection Heq as -> ->. left. split; [assumption | now left].
        -- left. split; [assumption | now right].
        -- right. split; [reflexivity|].
           destruct Hcase as [(g0 & Hin & ->)|[Hnin ->]].
           ++ left. exists g0. rewrite elem_of_cons.
              split; [now right | reflexivity].
           ++ right. split; [split; congruence | reflexivity].
      * intros [[Hd [Heq|Hin]]|[-> Hcase]].
        -- now left.
        -- right. left. now split.
        -- right. right. split; [reflexivity|].
           destruct Hcase as [(g0 & Hin & ->)|[[_ Hnin] ->]].
           ++ apply elem_of_cons in Hin as [Heq|Hin]; [congruence|].
              left. now exists g0.
           ++ right. now split.
Qed.

Lemma getTransactionsForDate_snoc (txs : list Transaction) tx d :
  getTransactionsForDate (txs ++ [tx]) d =
  (getTransactionsForDate txs d ++ if decide (date tx = d) then [tx] else [])%list.
Proof.
  unfold getTransactionsForDate. now rewrite filter_app.
Qed.

Lemma getTransactionsForDate_nil_iff (txs : list Transaction) d :
  getTransactionsForDate txs d = [] ↔ d ∉ date <$> txs.
Proof.
  unfold getTransactionsForDate. split.
  - intros Hnil Hin. apply list_elem_of_fmap in Hin as (tx & -> & Hin).
    assert (H : tx ∈ filter (λ tx0, date tx0 = date tx) txs)
      by (apply list_elem_of_filter; split; [reflexivity | assumption]).
    rewrite Hnil in H. now apply not_elem_of_nil in H.
  - intros Hnin. apply elem_of_nil_inv. intros tx Htx.
    apply list_elem_of_filter in Htx as [<- Htx]. apply Hnin.
    now apply list_elem_of_fmap_2.
Qed.

Lemma groupByDate_invariant (txs : list Transaction) :
  NoDup ((groupByDate txs).*1)
  ∧ ∀ d g, (d, g) ∈ groupByDate txs ↔
           g = getTransactionsForDate txs d ∧ g ≠ [].
Proof.
  induction txs as [|tx txs [IHnd IH]] using rev_ind.
  - split; [constructor|]. intros d g. cbn. rewrite elem_of_nil.
    split; [tauto|]. intros [-> H]. now apply H.
  - rewrite groupByDate_snoc.
    assert (Hkeys : ∀ d, d ∈ (groupByDate txs).*1 ↔ getTransactionsForDate txs d ≠ []).
    { intros d. rewrite list_elem_of_fmap. split.
      - intros ([d' g] & -> & Hin). apply IH in Hin as [-> Hne]. exact Hne.
      - intros Hne. exists (d, getTransactionsForDate txs d). split; [reflexivity|].
        apply IH. now split. }
    split.
    + rewrite pushTo_keys. case_decide as Hin; [assumption|].
      apply NoDup_app. split; [assumption|]. split; [|apply NoDup_singleton].
      intros x Hx Hx'. apply list_elem_of_singleton in Hx' as ->. now apply Hin.
    + intros d g. rewrite (pushTo_elem _ _ _ _ _ IHnd), getTransactionsForDate_snoc.
      destruct (decide (date tx = d)) as [<-|Hne].
      * split.
        -- intros [[Hd _]|[_ [(g0 & Hin & ->)|[Hnin ->]]]]; [congruence| |].
           ++ apply IH in Hin as [-> _]. split; [reflexivity|].
              intros H. now apply app_eq_nil in H as [_ H].
           ++ rewrite Hkeys in Hnin.
              destruct (getTransactionsForDate txs (date tx)) eqn:E;
                [split; [reflexivity | discriminate] | exfalso; now apply Hnin].
        -- intros [-> _]. right. split; [reflexivity|].
           destruct (getTransactionsForDate txs (date tx)) as [|t l] eqn:E.
           ++ right. split; [|reflexivity]. rewrite Hkeys, E. tauto.
           ++ left. exists (t :: l). split; [|reflexivity].
              apply IH. rewrite E. split; [reflexivity | discriminate].
      * rewrite app_nil_r, IH. split.
        -- intros [[_ H]|[Hd _]]; [exact H | congruence].
        -- intros H. left. split; [congruence | exact H].
Qed.

Lemma groupByDate_keys (txs : list Transaction) (d : string) :
  d ∈ (groupByDate txs).*1 ↔ d ∈ date <$> txs.
Proof.
  destruct (groupByDate_invariant txs) as [_ H].
  rewrite list_elem_of_fmap. split.
  - intros ([d' g] & -> & Hin). apply H in Hin as [-> Hne]. cbn [fst].
    destruct (decide (d' ∈ date <$> txs)) as [|Hn]; [assumption|].
    apply getTransactionsForDate_nil_iff in Hn. contradiction.
  - intros Hin. exists (d, getTransactionsForDate txs d). split; [reflexivity|].
    apply H. split; [reflexivity|]. rewrite getTransactionsForDate_nil_iff. tauto.
Qed.

(** X1. The grouped history list is a partition by date: no date heads two
    groups, the dates that head a group are those that occur in the list,
    and the group of a date holds exactly the transactions of that date, in
    list order; no group is empty. *)
Theorem grouped_list_partitions_by_date (txs : list Transaction) :
  NoDup ((groupByDate txs).*1)
  ∧ (∀ d, d ∈ (groupByDate txs).*1 ↔ d ∈ date <$> txs)
  ∧ (∀ d g, (d, g) ∈ groupByDate txs ↔
            g = getTransactionsForDate txs d ∧ g ≠ []).
Proof.
  destruct (groupByDate_invariant txs) as [Hnd H].
  split; [exact Hnd|]. split; [apply groupByDate_keys | exact H].
Qed.

(** X2. The groups come in the order of the list: if the dates of the
    transactions are sorted for a relation (the page asks the store for
    dates in descending order), the dates heading the groups are sorted for
    it too. *)
Theorem grouped_list_keeps_order (R : relation string) (txs : list Transaction) :
  StronglySorted R (date <$> txs) →
  StronglySorted R ((groupByDate txs).*1).
Proof.
  induction txs as [|tx txs IH] using rev_ind; [constructor|].
  rewrite fmap_app, StronglySorted_app. intros (Hcross & Hs & _).
  rewrite groupByDate_snoc, pushTo_keys. specialize (IH Hs).
  case_decide; [assumption|]. apply StronglySorted_app.
  split; [|split; [assumption | repeat constructor]].
  intros x1 x2 Hx1 Hx2. apply Hcross; [|exact Hx2].
  now apply groupByDate_keys.
Qed.

Lemma grouped_list_keeps_order_witness :
  StronglySorted ViewSamples.notBefore (date <$> ViewSamples.recentFirst)
  ∧ StronglySorted ViewSamples.notBefore
      ((groupByDate ViewSamples.recentFirst).*1).
Proof.
  assert (H : StronglySorted ViewSamples.notBefore
                (date <$> ViewSamples.recentFirst))
    by (repeat constructor).
  split; [exact H | exact (grouped_list_keeps_order _ _ H)].
Defined.

Lemma getFiltered_group (txs : list Transaction) (selectedDate : option string)
    (d : string) (g : list Transaction) :
  (d, g) ∈ groupByDate (getFilteredTransactions txs selectedDate) →
  g = getTransactionsForDate txs d ∧ g ≠ []
  ∧ match selectedDate with Some d' => d = d' | None => True end.
Proof.
  intros Hin. apply groupByDate_invariant in Hin as [Hg Hne].
  destruct selectedDate as [d'|]; cbn [getFilteredTransactions] in Hg.
  - assert (d = d') as ->.
    { destruct g as [|tx g]; [congruence|].
      assert (Htx : tx ∈ getTransactionsForDate (getTransactionsForDate txs d') d)
        by (rewrite <- Hg; apply list_elem_of_here).
      unfold getTransactionsForDate in Htx.
      apply list_elem_of_filter in Htx as [<- Htx].
      now apply list_elem_of_filter in Htx as [<- _]. }
    rewrite getTransactionsForDate_idem in Hg. tauto.
  - tauto.
Qed.

(** X3. Every group of the list, with or without a selected day, finds its
    daily total, and the total's income and expense are the sums of the
    amounts of the group's own income and expense transactions, added from 0
    in the order of the group. *)
Theorem group_header_totals_match_group (txs : list Transaction)
    (selectedDate : option string) (d : string) (g : list Transaction) :
  (d, g) ∈ groupByDate (getFilteredTransactions txs selectedDate) →
  dailyTotals txs !! d =
  Some {| income := sum (amountsOf TransactionType.income g);
          expense := sum (amountsOf TransactionType.expense g);
          net := Binary64.sub (sum (amountsOf TransactionType.income g))
                              (sum (amountsOf TransactionType.expense g)) |}.
Proof.
  intros Hin. apply getFiltered_group in Hin as (-> & Hne & _).
  rewrite dailyTotals_lookup, decide_True; [reflexivity|].
  destruct (decide (d ∈ date <$> txs)) as [|Hn]; [assumption|].
  now apply getTransactionsForDate_nil_iff in Hn.
Qed.

Lemma group_header_totals_match_group_witness :
  dailyTotals smallIncomes !! "2024-06-01" =
  Some {| income := sum (amountsOf TransactionType.income smallIncomes);
          expense := sum (amountsOf TransactionType.expense smallIncomes);
          net := Binary64.sub
                   (sum (amountsOf TransactionType.income smallIncomes))
                   (sum (amountsOf TransactionType.expense smallIncomes)) |}.
Proof.
  apply (group_header_totals_match_group smallIncomes (Some "2024-06-01")).
  vm_compute. apply list_elem_of_here.
Defined.

(** X4. With a day selected the list has at most one group: none when no
    transaction has that date, else the single group of that date, holding
    all of its transactions. *)
Theorem selected_day_single_group (txs : list Transaction) (dateStr : string) :
  groupByDate (getFilteredTransactions txs (Some dateStr)) =
  match getTransactionsForDate txs dateStr with
  | [] => []
  | g => [(dateStr, g)]
  end.
Proof.
  cbn [getFilteredTransactions].
  assert (Hall : ∀ l : list Transaction,
             Forall (λ tx, date tx = dateStr) l →
             groupByDate l = match l with [] => [] | _ => [(dateStr, l)] end).
  { induction l as [|tx l IH] using rev_ind; [reflexivity|].
    intros Hf. apply Forall_app in Hf as [Hl Htx].
    apply Forall_inv in Htx. cbn beta in Htx.
    rewrite groupByDate_snoc, (IH Hl), Htx.
    destruct l as [|t l]; cbn [pushTo app]; [reflexivity|].
    now rewrite decide_True. }
  rewrite Hall.
  - now destruct (getTransactionsForDate txs dateStr).
  - apply Forall_forall. intros tx Htx.
    now apply list_elem_of_filter in Htx as [? _].
Qed.

End GroupedList.

(** ** Goal cards and goal editing *)

Section GoalCards.
Import Goals.

Lemma Qeq_bool_pos_false (q : Q) : (0 < q)%Q → Qeq_bool q 0 = false.
Proof.
  intros Hq. apply not_true_iff_false. rewrite Qeq_bool_iff. intros E.
  rewrite E in Hq. now apply Qlt_irrefl in Hq.
Qed.

Lemma Qdiv_mult_hundred_ge (c t : Q) :
  (0 < t)%Q → (100 <= c / t * 100)%Q ↔ (t <= c)%Q.
Proof.
  intros Ht.
  assert (E : (c / t * t == c)%Q)
    by (field; intros H; rewrite H in Ht; now apply Qlt_irrefl in Ht).
  split; intros H; [rewrite <- E | rewrite <- E in H]; nra.
Qed.

(** the percentage shown on the card, from the coerced amounts *)
Lemma progress_percentage_eq {L : DateLib} (today : Date) (goal : SavingsGoal) :
  progress_percentage (calculate today goal) =
  JS.min (if JS.gt (JS.or (target_amount goal) JS.zero) JS.zero
          then JS.mul (JS.div (JS.or (current_amount goal) JS.zero)
                              (JS.or (target_amount goal) JS.zero)) JS.hundred
          else JS.zero) JS.hundred.
Proof. reflexivity. Qed.

(** X5. The calculator reports a percentage of at least 100, which is the
    test a card makes before its achievement banner, exactly when the target
    is above 0 and the current amount has reached it (for a target that is
    not infinite). *)
Theorem achieved_iff_current_reaches_target {L : DateLib} (today : Date)
    (goal : SavingsGoal) :
  JS.isInfinite (target_amount goal) = false →
  JS.ge (progress_percentage (calculate today goal)) JS.hundred =
  JS.gt (JS.or (target_amount goal) JS.zero) JS.zero
  && JS.le (JS.or (target_amount goal) JS.zero)
           (JS.or (current_amount goal) JS.zero).
Proof.
  intros Hfin. rewrite progress_percentage_eq.
  pose proof (js_or_zero_not_NaN (current_amount goal)) as Hc.
  rewrite <- js_or_zero_infinite in Hfin.
  destruct (JS.or (target_amount goal) JS.zero) as [| | |tq]; try discriminate;
    [reflexivity|].
  cbn [JS.gt JS.lt JS.zero]. destruct (JS.Qltb 0 tq) eqn:Ht; [|reflexivity].
  apply Qltb_lt in Ht. cbn [andb].
  destruct (JS.or (current_amount goal) JS.zero) as [| | |cq]; try discriminate.
  - cbn. rewrite (proj2 (Qle_bool_iff 0 tq)) by now apply Qlt_le_weak. reflexivity.
  - cbn. rewrite (proj2 (Qle_bool_iff 0 tq)) by now apply Qlt_le_weak. reflexivity.
  - cbn [JS.div]. rewrite (Qeq_bool_pos_false _ Ht). cbn [JS.mul JS.hundred].
    set (p := (cq / tq * 100)%Q).
    unfold JS.min, JS.ge, JS.le, JS.isNaN, JS.hundred. cbn [orb].
    destruct (Qle_bool tq cq) eqn:Hle.
    + apply Qle_bool_iff, (Qdiv_mult_hundred_ge cq tq Ht) in Hle.
      destruct (Qle_bool p 100) eqn:Hp.
      * now apply Qle_bool_iff.
      * reflexivity.
    + assert (Hlt : ¬ (100 <= p)%Q).
      { unfold p. rewrite (Qdiv_mult_hundred_ge cq tq Ht), <- Qle_bool_iff.
        congruence. }
      destruct (Qle_bool p 100) eqn:Hp.
      * apply not_true_iff_false. now rewrite Qle_bool_iff.
      * exfalso. apply Hlt. apply Qlt_le_weak, Qnot_le_lt.
        rewrite <- Qle_bool_iff. congruence.
Qed.

Lemma achieved_iff_current_reaches_target_witness :
  JS.ge (progress_percentage (Samples.calculate ViewSamples.reached)) JS.hundred
  = true
  ∧ JS.ge (progress_percentage (Samples.calculate ViewSamples.halfway)) JS.hundred
    = false.
Proof.
  split.
  - exact (achieved_iff_current_reaches_target (L := PlainCalendar.lib)
             Samples.today ViewSamples.reached eq_refl).
  - exact (achieved_iff_current_reaches_target (L := PlainCalendar.lib)
             Samples.today ViewSamples.halfway eq_refl).
Defined.

Lemma inject_Z_pos (m : Z) : (0 < m)%Z → (0 < inject_Z m)%Q.
Proof. intros H. change 0%Q with (inject_Z 0). now rewrite <- Zlt_Qlt. Qed.

Lemma deadlineBlock_monthlyRequired {L : DateLib} (today : Date)
    (goal : SavingsGoal) (t c : JS.number) :
  monthlyRequired (deadlineBlock today goal t c) = JS.zero
  ∨ ∃ m, (0 < m)%Z
         ∧ monthlyRequired (deadlineBlock today goal t c)
           = JS.div (JS.sub t c) (JS.ofZ m).
Proof.
  unfold deadlineBlock. destruct (deadline goal) as [s|]; [|now left].
  destruct (nonEmpty s); [|now left].
  destruct (newDate s) as [d|]; [|now left]. cbn [monthlyRequired].
  destruct (0 <? differenceInMonths d today)%Z eqn:Hm; [|now left].
  right. exists (differenceInMonths d today). split; [|reflexivity].
  now apply Z.ltb_lt.
Qed.

(** X6. Once the current amount has reached the target (a target that is
    not infinite), the monthly required amount is 0, whatever the deadline. *)
Theorem reached_goal_requires_nothing {L : DateLib} (today : Date)
    (goal : SavingsGoal) :
  JS.isInfinite (target_amount goal) = false →
  JS.le (JS.or (target_amount goal) JS.zero)
        (JS.or (current_amount goal) JS.zero) = true →
  monthly_required_amount (calculate today goal) = JS.zero.
Proof.
  intros Hfin Hle. unfold calculate; cbn [monthly_required_amount].
  rewrite <- js_or_zero_infinite in Hfin.
  destruct (deadlineBlock_monthlyRequired today goal
              (JS.or (target_amount goal) JS.zero)
              (JS.or (current_amount goal) JS.zero)) as [->|(m & Hm & ->)];
    [reflexivity|].
  apply inject_Z_pos in Hm.
  destruct (JS.or (target_amount goal) JS.zero) as [| | |tq]; try discriminate.
  destruct (JS.or (current_amount goal) JS.zero) as [| | |cq]; try discriminate.
  - cbn. rewrite (proj2 (Qle_bool_iff 0 (inject_Z m))) by now apply Qlt_le_weak.
    reflexivity.
  - cbn [JS.sub JS.div JS.ofZ]. rewrite (Qeq_bool_pos_false _ Hm).
    unfold JS.max, JS.le, JS.isNaN, JS.zero. cbn [orb].
    cbn [JS.le] in Hle. apply Qle_bool_iff in Hle.
    rewrite (proj2 (Qle_bool_iff _ 0)); [reflexivity|].
    apply Qle_shift_div_r; [assumption|]. nra.
Qed.

Lemma reached_goal_requires_nothing_witness :
  monthly_required_amount (Samples.calculate ViewSamples.reached) = JS.zero.
Proof.
  exact (reached_goal_requires_nothing (L := PlainCalendar.lib)
           Samples.today ViewSamples.reached eq_refl eq_refl).
Defined.

(** the percentage before the clamp, for a positive finite target *)
Lemma raw_progress_shape (c : JS.number) (tq : Q) :
  (0 < tq)%Q →
  JS.mul (JS.div c (JS.Num tq)) JS.hundred =
  match c with
  | JS.Num cq => JS.Num (cq / tq * 100)
  | other => other
  end.
Proof.
  intros Ht. destruct c as [| | |cq]; cbn [JS.div JS.mul JS.hundred].
  - reflexivity.
  - rewrite (proj2 (Qle_bool_iff 0 tq)) by now apply Qlt_le_weak. reflexivity.
  - rewrite (proj2 (Qle_bool_iff 0 tq)) by now apply Qlt_le_weak. reflexivity.
  - now rewrite (Qeq_bool_pos_false _ Ht).
Qed.

Lemma Qdiv_mult_hundred_le (c1 c2 t : Q) :
  (0 < t)%Q → (c1 <= c2)%Q → (c1 / t * 100 <= c2 / t * 100)%Q.
Proof.
  intros Ht Hc. apply Qmult_le_compat_r; [|discriminate].
  unfold Qdiv. apply Qmult_le_compat_r; [assumption|].
  apply Qinv_le_0_compat, Qlt_le_weak, Ht.
Qed.

Lemma js_min_hundred_mono (x y : JS.number) :
  JS.le x y = true → JS.le (JS.min x JS.hundred) (JS.min y JS.hundred) = true.
Proof.
  destruct x as [| | |a], y as [| | |b]; try discriminate; try reflexivity;
    unfold JS.min, JS.hundred; cbn [JS.isNaN orb JS.le]; intros Hab.
  - now destruct (Qle_bool b 100).
  - destruct (Qle_bool a 100) eqn:Ha; [assumption | reflexivity].
  - apply Qle_bool_iff in Hab.
    destruct (Qle_bool a 100) eqn:Ha, (Qle_bool b 100) eqn:Hb; cbn [JS.le];
      try reflexivity.
    + now apply Qle_bool_iff.
    + assumption.
    + exfalso. apply Qle_bool_iff in Hb.
      assert (H : Qle_bool a 100 = true) by (apply Qle_bool_iff; lra).
      congruence.
Qed.

(** X8. For a fixed target (not infinite), the percentage never goes down
    when the current amount goes up. *)
Theorem progress_monotone_in_current {L : DateLib} (today : Date)
    (g1 g2 : SavingsGoal) :
  target_amount g1 = target_amount g2 →
  JS.isInfinite (target_amount g1) = false →
  JS.le (JS.or (current_amount g1) JS.zero)
        (JS.or (current_amount g2) JS.zero) = true →
  JS.le (progress_percentage (calculate today g1))
        (progress_percentage (calculate today g2)) = true.
Proof.
  intros Ht Hfin Hc. rewrite !progress_percentage_eq, <- Ht.
  rewrite <- js_or_zero_infinite in Hfin.
  destruct (JS.or (target_amount g1) JS.zero) as [| | |tq] eqn:E;
    try discriminate; [reflexivity|].
  cbn [JS.gt JS.lt JS.zero]. destruct (JS.Qltb 0 tq) eqn:Hpos; [|reflexivity].
  apply Qltb_lt in Hpos. rewrite !(raw_progress_shape _ tq Hpos).
  apply js_min_hundred_mono.
  destruct (JS.or (current_amount g1) JS.zero) as [| | |c1],
           (JS.or (current_amount g2) JS.zero) as [| | |c2];
    try discriminate; try reflexivity.
  cbn [JS.le] in *. apply Qle_bool_iff. apply Qle_bool_iff in Hc.
  now apply Qdiv_mult_hundred_le.
Qed.

Lemma progress_monotone_in_current_witness :
  JS.le (progress_percentage (Samples.calculate Samples.sixMonths))
        (progress_percentage (Samples.calculate ViewSamples.halfway)) = true.
Proof.
  exact (progress_monotone_in_current (L := PlainCalendar.lib) Samples.today
           Samples.sixMonths ViewSamples.halfway eq_refl eq_refl eq_refl).
Defined.

Lemma goal_update_within_bounds_aux (st : GoalsEdit.State) (goalId : Z)
    (updateError : option string) :
  let T := JS.parseFloat (GoalsEdit.target_amount (GoalsEdit.editGoal st)) in
  let C := JS.parseFloat (GoalsEdit.current_amount (GoalsEdit.editGoal st)) in
  let out := GoalsEdit.handleUpdateGoal st goalId updateError in
  (∀ id p, In (GoalsEdit.Update id p) (snd out) →
           id = goalId
           ∧ GoalsEdit.upd_target_amount p = T ∧ JS.gt T JS.zero = true
           ∧ GoalsEdit.upd_current_amount p = C ∧ JS.ge C JS.zero = true)
  ∧ (JS.gt T JS.zero && JS.ge C JS.zero = false →
     snd out = [] ∧ GoalsEdit.error (fst out) ≠ None).
Proof.
  intros T C out. subst out. unfold GoalsEdit.handleUpdateGoal. fold T C.
  rewrite js_validation_positive, js_validation_nonnegative.
  destruct (JS.gt T JS.zero) eqn:HT; cbn [negb andb].
  - destruct (JS.ge C JS.zero) eqn:HC; cbn [negb].
    + split; [|discriminate]. intros id p.
      destruct updateError; cbn [snd In]; intros H;
        repeat (destruct H as [H|H];
                [try discriminate; injection H as <- <-; repeat split; assumption|]);
        destruct H.
    + split; [intros id p []|]. intros _. split; [reflexivity | discriminate].
  - split; [intros id p []|]. intros _. split; [reflexivity | discriminate].
Qed.

(** X9. [handleUpdateGoal] writes only amounts within bounds: every update it
    sends is addressed to the goal being saved and carries a target above 0
    and a current amount of at least 0 (so neither is [NaN]); when the form
    fails either test, nothing is sent and a message is shown. *)
Theorem goal_update_within_bounds (st : GoalsEdit.State) (goalId : Z)
    (updateError : option string) :
  let T := JS.parseFloat (GoalsEdit.target_amount (GoalsEdit.editGoal st)) in
  let C := JS.parseFloat (GoalsEdit.current_amount (GoalsEdit.editGoal st)) in
  let out := GoalsEdit.handleUpdateGoal st goalId updateError in
  (∀ id p, In (GoalsEdit.Update id p) (snd out) →
           id = goalId
           ∧ GoalsEdit.upd_target_amount p = T ∧ JS.gt T JS.zero = true
           ∧ GoalsEdit.upd_current_amount p = C ∧ JS.ge C JS.zero = true)
  ∧ (JS.gt T JS.zero && JS.ge C JS.zero = false →
     snd out = [] ∧ GoalsEdit.error (fst out) ≠ None).
Proof. exact (goal_update_within_bounds_aux st goalId updateError). Qed.

Lemma goal_update_within_bounds_witness :
  In (GoalsEdit.Update 1 ViewSamples.editedPayload)
     (snd (GoalsEdit.handleUpdateGoal ViewSamples.editForm 1 None))
  ∧ JS.gt (GoalsEdit.upd_target_amount ViewSamples.editedPayload) JS.zero = true
  ∧ JS.ge (GoalsEdit.upd_current_amount ViewSamples.editedPayload) JS.zero = true.
Proof.
  assert (H : In (GoalsEdit.Update 1 ViewSamples.editedPayload)
                (snd (GoalsEdit.handleUpdateGoal ViewSamples.editForm 1 None)))
    by (left; reflexivity).
  split; [exact H|].
  pose proof (proj1 (goal_update_within_bounds ViewSamples.editForm 1 None) _ _ H)
    as (_ & HT & HTpos & HC & HCpos).
  cbv zeta in HT, HTpos, HC, HCpos. rewrite HT, HC. split; assumption.
Defined.

Lemma js_gt_zero_or (x : JS.number) :
  JS.gt x JS.zero = true → JS.or x JS.zero = x.
Proof.
  unfold JS.or. destruct x as [| | |q]; try reflexivity; try discriminate.
  cbn. intros H. apply Qltb_lt in H.
  rewrite (Qeq_bool_pos_false _ H). reflexivity.
Qed.

Lemma js_ge_zero_or (x : JS.number) :
  JS.ge x JS.zero = true → JS.le JS.zero (JS.or x JS.zero) = true.
Proof.
  unfold JS.or. destruct x as [| | |q]; try reflexivity; try discriminate.
  cbn. destruct (Qeq_bool q 0); [reflexivity|]. cbn. tauto.
Qed.

Lemma progress_within_range {L : DateLib} (today : Date) (goal : SavingsGoal) :
  JS.isInfinite (target_amount goal) = false →
  JS.gt (JS.or (target_amount goal) JS.zero) JS.zero = true →
  JS.le JS.zero (JS.or (current_amount goal) JS.zero) = true →
  JS.le JS.zero (progress_percentage (calculate today goal)) = true
  ∧ JS.le (progress_percentage (calculate today goal)) JS.hundred = true.
Proof.
  intros Hfin Hgt Hc. rewrite progress_percentage_eq, Hgt.
  apply js_gt_zero_finite in Hgt as (tq & Ht & Hpos);
    [| now rewrite js_or_zero_infinite].
  rewrite Ht.
  destruct (raw_progress_cases _ tq Hpos (js_or_zero_not_NaN (current_amount goal)))
    as [Hnan Hlow].
  specialize (Hlow Hc).
  set (P := JS.mul _ JS.hundred) in *. split.
  - unfold JS.min. rewrite Hnan. change (JS.isNaN JS.hundred) with false.
    cbn [orb]. destruct (JS.le P JS.hundred); [exact Hlow | reflexivity].
  - now apply js_min_le_r.
Qed.

(** X10. What [handleUpdateGoal] lets through keeps the percentage in range:
    a goal holding the amounts of an update it sent (with a target that is
    not infinite) has a progress percentage between 0 and 100. *)
Theorem saved_goal_progress_in_range {L : DateLib} (today : Date)
    (st : GoalsEdit.State) (goalId : Z) (updateError : option string)
    (id : Z) (p : GoalsEdit.GoalUpdate) (goal : SavingsGoal) :
  In (GoalsEdit.Update id p)
     (snd (GoalsEdit.handleUpdateGoal st goalId updateError)) →
  target_amount goal = GoalsEdit.upd_target_amount p →
  current_amount goal = GoalsEdit.upd_current_amount p →
  JS.isInfinite (target_amount goal) = false →
  JS.le JS.zero (progress_percentage (calculate today goal)) = true
  ∧ JS.le (progress_percentage (calculate today goal)) JS.hundred = true.
Proof.
  intros Hin Ht Hc Hfin.
  apply (proj1 (goal_update_within_bounds_aux st goalId updateError)) in Hin
    as (_ & HT & HTpos & HC & HCpos).
  apply progress_within_range; [assumption| |].
  - rewrite Ht, HT. now rewrite (js_gt_zero_or _ HTpos).
  - rewrite Hc, HC. now apply js_ge_zero_or.
Qed.

Lemma saved_goal_progress_in_range_witness :
  JS.le JS.zero (progress_percentage (Samples.calculate Samples.sixMonths)) = true
  ∧ JS.le (progress_percentage (Samples.calculate Samples.sixMonths)) JS.hundred
    = true.
Proof.
  apply (saved_goal_progress_in_range (L := PlainCalendar.lib) Samples.today
           ViewSamples.editForm 1 None 1 ViewSamples.editedPayload
           Samples.sixMonths);
    [left; reflexivity | reflexivity | reflexivity | reflexivity].
Defined.

(** X21. The deadline notes of a goal card follow the parsed deadline. For a
    goal whose deadline is missing or does not parse, neither the
    days-remaining note nor the monthly box is shown. When the monthly box is
    shown, the goal is active, its deadline parsed and lies [m >= 1] months
    ahead, and the amount in the box is [max((target - current) / m, 0)]. *)
Theorem deadline_notes_follow_parsed_deadline {L : DateLib} (today : Date)
    (goal : SavingsGoal) :
  (deadline goal = None
   ∨ deadline goal = Some ""
   ∨ (∃ s, deadline goal = Some s ∧ newDate s = None) →
   GoalsEdit.daysRemainingShown (calculate today goal) = false
   ∧ GoalsEdit.monthlyRequiredShown (calculate today goal) = false)
  ∧ (GoalsEdit.monthlyRequiredShown (calculate today goal) = true →
     is_active goal = true
     ∧ ∃ s d, deadline goal = Some s ∧ newDate s = Some d
              ∧ (1 <= differenceInMonths d today)%Z
              ∧ monthly_required_amount (calculate today goal)
                = JS.max (JS.div (JS.sub (JS.or (target_amount goal) JS.zero)
                                         (JS.or (current_amount goal) JS.zero))
                                 (JS.ofZ (differenceInMonths d today)))
                         JS.zero).
Proof.
  unfold GoalsEdit.daysRemainingShown, GoalsEdit.monthlyRequiredShown, calculate.
  cbn [days_remaining months_remaining monthly_required_amount row is_active].
  split.
  - intros H. rewrite (deadlineBlock_unusable _ _ _ _ H).
    cbn [daysRemaining monthsRemaining initialLocals].
    now rewrite !andb_false_r.
  - unfold deadlineBlock. destruct (deadline goal) as [s|];
      [|cbn; rewrite andb_false_r; discriminate].
    destruct (nonEmpty s); [|cbn; rewrite andb_false_r; discriminate].
    destruct (newDate s) as [d|] eqn:Hp; [|cbn; rewrite andb_false_r; discriminate].
    cbn [monthsRemaining monthlyRequired]. intros H.
    apply andb_prop in H as [H Hm]. apply andb_prop in H as [Ha _].
    split; [exact Ha|]. exists s, d. apply Z.ltb_lt in Hm.
    split; [reflexivity|]. split; [exact Hp|]. split; [lia|].
    now rewrite (proj2 (Z.ltb_lt _ _) Hm).
Qed.

Lemma deadline_notes_follow_parsed_deadline_witness :
  GoalsEdit.monthlyRequiredShown (Samples.calculate Samples.sixMonths) = true
  ∧ is_active Samples.sixMonths = true
  ∧ GoalsEdit.monthlyRequiredShown (Samples.calculate Samples.badDeadline) = false.
Proof.
  assert (H : GoalsEdit.monthlyRequiredShown (Samples.calculate Samples.sixMonths)
              = true) by reflexivity.
  split; [exact H|]. split.
  - exact (proj1 (proj2 (deadline_notes_follow_parsed_deadline
                           (L := PlainCalendar.lib) Samples.today Samples.sixMonths)
                        H)).
  - refine (proj2 (proj1 (deadline_notes_follow_parsed_deadline
                            (L := PlainCalendar.lib) Samples.today
                            Samples.badDeadline) _)).
    right. right. exists "someday". split; reflexivity.
Defined.

End GoalCards.


(** ** The calendar of the history page *)

Section CalendarGrid.
Import PlainCalendar MonthView.

Local Open Scope Z_scope.

Lemma dayNumber_same_month (y m k : Z) :
  dayNumber (y, m, k) = dayNumber (y, m, 1) + (k - 1).
Proof. unfold dayNumber. lia. Qed.

Lemma generateCalendarDays_eq (y m d0 : Z) :
  generateCalendarDays (y, m, d0) =
  (replicate (Z.to_nat (getDay (y, m, 1))) None ++
   (Some <$> ((λ k, (y, m, k)) <$> seqZ 1 (daysInMonth y m))))%list.
Proof.
  unfold generateCalendarDays, startOfMonth, endOfMonth, eachDayOfInterval.
  do 4 f_equal. lia.
Qed.

Lemma getDay_range (x : YMD) : 0 <= getDay x < 7.
Proof. unfold getDay. apply Z.mod_pos_bound. lia. Qed.

(** X11. In the calendar grid every day of the month sits in the column of
    its weekday: the cell at position [i] that holds a day holds a day of the
    month shown whose [getDay()] is [i mod 7]. The grid starts with fewer
    than 7 empty cells and then lists the days of the month, once each, in
    order. *)
Theorem calendar_grid_columns_are_weekdays (y m d0 : Z) :
  (∀ (i : nat) (day : YMD),
      generateCalendarDays (y, m, d0) !! i = Some (Some day) →
      getDay day = Z.of_nat i mod 7
      ∧ ∃ k, day = (y, m, k) ∧ 1 <= k <= daysInMonth y m)
  ∧ (∃ blanks : nat,
       (blanks < 7)%nat
       ∧ generateCalendarDays (y, m, d0) =
         (replicate blanks None ++
          (Some <$> ((λ k, (y, m, k)) <$> seqZ 1 (daysInMonth y m))))%list).
Proof.
  rewrite generateCalendarDays_eq.
  pose proof (getDay_range (y, m, 1)) as Hb.
  set (b := getDay (y, m, 1)) in *.
  split.
  - intros i day Hi.
    destruct (decide (i < Z.to_nat b)%nat) as [Hlt|Hge].
    + rewrite lookup_app_l in Hi by (rewrite length_replicate; lia).
      apply lookup_replicate in Hi as [Hi _]. discriminate.
    + rewrite lookup_app_r in Hi by (rewrite length_replicate; lia).
      rewrite length_replicate in Hi.
      rewrite list_lookup_fmap, list_lookup_fmap in Hi.
      destruct (seqZ 1 (daysInMonth y m) !! (i - Z.to_nat b)%nat) as [k|] eqn:Hk;
        [|discriminate].
      cbn in Hi. injection Hi as <-.
      apply lookup_seqZ in Hk as [-> Hk].
      split; [|eexists; split; [reflexivity | lia]].
      unfold getDay. rewrite dayNumber_same_month.
      unfold b, getDay in *.
      replace (dayNumber (y, m, 1) + (1 + Z.of_nat (i - Z.to_nat ((dayNumber (y, m, 1) + 4) mod 7)) - 1) + 4)
        with (Z.of_nat i + ((dayNumber (y, m, 1) + 4) - (dayNumber (y, m, 1) + 4) mod 7))
        by lia.
      rewrite (Z.mod_eq (dayNumber (y, m, 1) + 4) 7) by lia.
      replace (Z.of_nat i + (dayNumber (y, m, 1) + 4
                 - (dayNumber (y, m, 1) + 4 - 7 * ((dayNumber (y, m, 1) + 4) / 7))))
        with (Z.of_nat i + ((dayNumber (y, m, 1) + 4) / 7) * 7) by lia.
      apply Z.mod_add. lia.
  - exists (Z.to_nat b). split; [lia | reflexivity].
Qed.

Lemma calendar_grid_columns_are_weekdays_witness :
  generateCalendarDays (2024, 6, 15) !! 6%nat = Some (Some (2024, 6, 1))
  ∧ getDay (2024, 6, 1) = 6.
Proof.
  assert (H : generateCalendarDays (2024, 6, 15) !! 6%nat
              = Some (Some (2024, 6, 1))) by reflexivity.
  split; [exact H|].
  exact (proj1 (proj1 (calendar_grid_columns_are_weekdays 2024 6 15) _ _ H)).
Defined.

Lemma dayNumber_first_bound (y m : Z) :
  0 <= y <= 200001 → 1 <= m <= 12 →
  Z.abs (dayNumber (y, m, 1)) <= 100000000.
Proof.
  intros Hy Hm. unfold dayNumber.
  destruct (m <=? 2) eqn:E;
    [apply Z.leb_le in E | apply Z.leb_gt in E];
    Z.to_euclidean_division_equations; lia.
Qed.

Lemma newDateYM_in_range (y mi : Z) :
  100 <= y → 100 <= y + mi / 12 <= 200001 →
  newDateYM y mi = Some (y + mi / 12, mi mod 12).
Proof.
  intros Hy Hr. unfold newDateYM, makeFullYear.
  replace ((0 <=? y) && (y <=? 99))%bool with false
    by (symmetry; apply andb_false_iff; right; apply Z.leb_gt; lia).
  pose proof (Z.mod_pos_bound mi 12 ltac:(lia)) as Hm.
  rewrite (proj2 (Z.leb_le _ _)); [reflexivity|].
  apply dayNumber_first_bound; lia.
Qed.

(** X12. Going to the previous or to the next month drops the selected
    day, from every state. Going to the previous month and then to the next,
    or the other way round, comes back to the month shown, for years 101 to
    200000. *)
Theorem month_navigation_round_trip (st : State) (y m : Z) :
  currentMonth st = Some (y, m) →
  101 <= y <= 200000 → 0 <= m <= 11 →
  (∀ st' : State,
      selectedDate (handlePreviousMonth st') = None
      ∧ selectedDate (handleNextMonth st') = None)
  ∧ handleNextMonth (handlePreviousMonth st)
    = {| currentMonth := Some (y, m); selectedDate := None |}
  ∧ handlePreviousMonth (handleNextMonth st)
    = {| currentMonth := Some (y, m); selectedDate := None |}.
Proof.
  intros Hst Hy Hm. split; [intros st'; split; reflexivity|].
  unfold handleNextMonth, handlePreviousMonth.
  cbn [currentMonth]. rewrite Hst.
  assert (Hp : (m - 1) / 12 = (if m =? 0 then -1 else 0)
               ∧ (m - 1) mod 12 = (if m =? 0 then 11 else m - 1)).
  { destruct (m =? 0) eqn:E; [apply Z.eqb_eq in E | apply Z.eqb_neq in E];
      Z.to_euclidean_division_equations; lia. }
  assert (Hn : (m + 1) / 12 = (if m =? 11 then 1 else 0)
               ∧ (m + 1) mod 12 = (if m =? 11 then 0 else m + 1)).
  { destruct (m =? 11) eqn:E; [apply Z.eqb_eq in E | apply Z.eqb_neq in E];
      Z.to_euclidean_division_equations; lia. }
  destruct Hp as [Hp1 Hp2], Hn as [Hn1 Hn2].
  rewrite (newDateYM_in_range y (m - 1)), (newDateYM_in_range y (m + 1));
    [| lia | destruct (m =? 11); lia | lia | destruct (m =? 0); lia].
  rewrite Hp1, Hp2, Hn1, Hn2.
  split.
  - destruct (m =? 0) eqn:E; [apply Z.eqb_eq in E | apply Z.eqb_neq in E].
    + rewrite newDateYM_in_range by (change ((11 + 1) / 12) with 1; lia).
      do 3 f_equal; subst m; [change ((11 + 1) / 12) with 1; lia | reflexivity].
    + assert ((m - 1 + 1) / 12 = 0 ∧ (m - 1 + 1) mod 12 = m) as [E1 E2]
        by (Z.to_euclidean_division_equations; lia).
      rewrite newDateYM_in_range by (rewrite ?E1; lia).
      rewrite E1, E2. do 3 f_equal. lia.
  - destruct (m =? 11) eqn:E; [apply Z.eqb_eq in E | apply Z.eqb_neq in E].
    + rewrite newDateYM_in_range by (change ((0 - 1) / 12) with (-1); lia).
      do 3 f_equal; subst m; [change ((0 - 1) / 12) with (-1); lia | reflexivity].
    + assert ((m + 1 - 1) / 12 = 0 ∧ (m + 1 - 1) mod 12 = m) as [E1 E2]
        by (Z.to_euclidean_division_equations; lia).
      rewrite newDateYM_in_range by (rewrite ?E1; lia).
      rewrite E1, E2. do 3 f_equal. lia.
Qed.

Lemma month_navigation_round_trip_witness :
  selectedDate ViewSamples.january2024 = Some "2024-01-15"
  ∧ selectedDate (handlePreviousMonth ViewSamples.january2024) = None
  ∧ selectedDate (handleNextMonth ViewSamples.january2024) = None
  ∧ handleNextMonth (handlePreviousMonth ViewSamples.january2024)
    = {| currentMonth := Some (2024, 0); selectedDate := None |}
  ∧ handlePreviousMonth (handleNextMonth ViewSamples.january2024)
    = {| currentMonth := Some (2024, 0); selectedDate := None |}.
Proof.
  pose proof (month_navigation_round_trip ViewSamples.january2024 2024 0
                eq_refl ltac:(lia) ltac:(lia)) as (Hsel & Hrt).
  split; [reflexivity|].
  split; [exact (proj1 (Hsel ViewSamples.january2024))|].
  split; [exact (proj2 (Hsel ViewSamples.january2024)) | exact Hrt].
Defined.

End CalendarGrid.


(** ** Saving an edited transaction *)

Section SaveEdit.
Import HistoryEdit.

(** X13. [handleSaveEdit] sends an update only from a complete dialog: every
    update is addressed to the transaction being edited and carries the
    selected category, which is neither 0 nor [NaN], a non-empty date, and
    [Number] of a non-empty amount text. *)
Theorem save_edit_sends_complete_updates (st : State)
    (updateError : option string) (id : Z) (p : TransactionUpdate) :
  In (Update id p) (snd (handleSaveEdit st updateError)) →
  (∃ tx, editingTransaction st = Some tx ∧ id = History.transaction_id tx)
  ∧ editCategoryId st = Some (upd_category_id p)
  ∧ JS.truthy (upd_category_id p) = true
  ∧ upd_date p = editDate st ∧ nonEmpty (editDate st) = true
  ∧ upd_amount p = JSString.Number (editAmount st)
  ∧ nonEmpty (editAmount st) = true.
Proof.
  unfold handleSaveEdit.
  destruct (editingTransaction st) as [tx|]; [|intros [H|[]]; discriminate].
  destruct (editCategoryId st) as [c|]; [|intros [H|[]]; discriminate].
  destruct (nonEmpty (editAmount st)) eqn:Ha; cbn [andb];
    [|intros [H|[]]; discriminate].
  destruct (JS.truthy c) eqn:Hc; cbn [andb]; [|intros [H|[]]; discriminate].
  destruct (nonEmpty (editDate st)) eqn:Hd; [|intros [H|[]]; discriminate].
  destruct updateError; cbn [snd In]; intros [H|[H|[]]]; try discriminate;
    injection H as <- <-; cbn; repeat split; try assumption; now exists tx.
Qed.

Lemma save_edit_sends_complete_updates_witness :
  In (Update 0 ViewSamples.editedTransaction)
     (snd (handleSaveEdit ViewSamples.editDialog None))
  ∧ JS.truthy (upd_category_id ViewSamples.editedTransaction) = true.
Proof.
  assert (H : In (Update 0 ViewSamples.editedTransaction)
                (snd (handleSaveEdit ViewSamples.editDialog None)))
    by (left; reflexivity).
  split; [exact H|].
  exact (proj1 (proj2 (proj2 (save_edit_sends_complete_updates _ _ _ _ H)))).
Defined.

(** X14. Picking the placeholder entry of the category select (value [""])
    blocks saving: whatever else the dialog holds, [handleSaveEdit] then only
    shows the alert and the dialog stays as it is. *)
Theorem placeholder_category_blocks_save (st : State)
    (updateError : option string) :
  handleSaveEdit (selectCategory st "") updateError =
  (selectCategory st "", [Alert "すべての項目を入力してください"]).
Proof.
  unfold handleSaveEdit, selectCategory; cbn [editingTransaction editCategoryId].
  destruct (editingTransaction st); [|reflexivity].
  replace (JS.truthy (JSString.Number "")) with false by reflexivity.
  now rewrite andb_false_r.
Qed.

End SaveEdit.

(** ** What the entry pages send and keep *)

Section EntryPages.
Import Store.

(** X15. The plain entry page inserts only amounts above 0: every insert it
    sends is for the signed-in user, with the type and date of the form and
    an amount that is a number above 0. *)
Theorem InputPage_inserts_positive_amounts (st : InputPage.State)
    (answer : Answer) (todayStr : string) (p : TransactionInsert) :
  In p (inserts (snd (InputPage.handleSubmit st answer todayStr))) →
  InputPage.user st = Some (user_id p)
  ∧ amount p = JS.parseFloat (InputPage.amount st)
  ∧ JS.gt (amount p) JS.zero = true
  ∧ type p = InputPage.transactionType st
  ∧ date p = InputPage.date st.
Proof.
  unfold InputPage.handleSubmit.
  destruct (InputPage.user st) as [uid|]; [|intros []].
  rewrite js_validation_positive.
  destruct (JS.gt (JS.parseFloat (InputPage.amount st)) JS.zero) eqn:Hgt;
    cbn [negb]; [|intros []].
  destruct answer; cbn; intros [<-|[]]; cbn; repeat split; assumption.
Qed.

Lemma InputPage_inserts_positive_amounts_witness :
  In ViewSamples.fareInsert
     (inserts (snd (InputPage.handleSubmit (Samples.fareForm "食費") None "2024-06-15")))
  ∧ JS.gt (amount ViewSamples.fareInsert) JS.zero = true.
Proof.
  assert (H : In ViewSamples.fareInsert
                (inserts (snd (InputPage.handleSubmit (Samples.fareForm "食費")
                                 None "2024-06-15"))))
    by (left; reflexivity).
  split; [exact H|].
  exact (proj1 (proj2 (proj2 (InputPage_inserts_positive_amounts _ _ _ _ H)))).
Defined.

(** X16. The entry page with the category list inserts only amounts that are
    numbers of at least 0, for the signed-in user and with the category
    selected in the form. *)
Theorem TransactionInputPage_inserts_non_negative (st : TransactionInputPage.State)
    (answer : Answer) (todayStr : string) (p : TransactionInsert) :
  In p (inserts (snd (TransactionInputPage.handleSubmit st answer todayStr))) →
  TransactionInputPage.user st = Some (user_id p)
  ∧ amount p = JS.parseFloat (TransactionInputPage.amount st)
  ∧ JS.ge (amount p) JS.zero = true
  ∧ TransactionInputPage.categoryId st = Some (category_id p)
  ∧ type p = TransactionInputPage.transactionType st
  ∧ date p = TransactionInputPage.date st.
Proof.
  unfold TransactionInputPage.handleSubmit.
  destruct (TransactionInputPage.user st) as [uid|]; [|intros []].
  rewrite js_validation_nonnegative.
  destruct (JS.ge (JS.parseFloat (TransactionInputPage.amount st)) JS.zero) eqn:Hge;
    cbn [negb]; [|intros []].
  destruct (TransactionInputPage.categoryId st) as [cid|]; [|intros []].
  destruct answer; cbn; intros [<-|[]]; cbn; repeat split; assumption.
Qed.

Lemma TransactionInputPage_inserts_non_negative_witness :
  In ViewSamples.zeroInsert
     (inserts (snd (TransactionInputPage.handleSubmit Samples.zeroAmountForm
                      None "2024-06-15")))
  ∧ JS.ge (amount ViewSamples.zeroInsert) JS.zero = true.
Proof.
  assert (H : In ViewSamples.zeroInsert
                (inserts (snd (TransactionInputPage.handleSubmit
                                 Samples.zeroAmountForm None "2024-06-15"))))
    by (left; reflexivity).
  split; [exact H|].
  exact (proj1 (proj2 (proj2 (TransactionInputPage_inserts_non_negative _ _ _ _ H)))).
Defined.

(** X17. An error never costs the user what was typed: when a submit on
    either entry page ends with an error message, the fields of the form are
    as they were and the form is no longer loading. *)
Theorem submit_error_keeps_the_form :
  (∀ (st : InputPage.State) (answer : Answer) (todayStr : string),
      let st' := fst (InputPage.handleSubmit st answer todayStr) in
      InputPage.user st ≠ None → InputPage.error st' ≠ None →
      InputPage.amount st' = InputPage.amount st
      ∧ InputPage.category st' = InputPage.category st
      ∧ InputPage.note st' = InputPage.note st
      ∧ InputPage.date st' = InputPage.date st
      ∧ InputPage.transactionType st' = InputPage.transactionType st
      ∧ InputPage.loading st' = false)
  ∧ (∀ (st : TransactionInputPage.State) (answer : Answer) (todayStr : string),
      let st' := fst (TransactionInputPage.handleSubmit st answer todayStr) in
      TransactionInputPage.user st ≠ None →
      TransactionInputPage.error st' ≠ None →
      TransactionInputPage.amount st' = TransactionInputPage.amount st
      ∧ TransactionInputPage.categoryId st' = TransactionInputPage.categoryId st
      ∧ TransactionInputPage.memo st' = TransactionInputPage.memo st
      ∧ TransactionInputPage.date st' = TransactionInputPage.date st
      ∧ TransactionInputPage.transactionType st'
        = TransactionInputPage.transactionType st
      ∧ TransactionInputPage.loading st' = false).
Proof.
  split.
  - intros st answer todayStr. unfold InputPage.handleSubmit.
    destruct (InputPage.user st); [|intros ? H; now contradiction H].
    destruct (_ || _); [cbn; intros; repeat split; reflexivity|].
    destruct answer; cbn; intros _ H; [repeat split; reflexivity|].
    now contradiction H.
  - intros st answer todayStr. unfold TransactionInputPage.handleSubmit.
    destruct (TransactionInputPage.user st); [|intros ? H; now contradiction H].
    destruct (_ || _); [cbn; intros; repeat split; reflexivity|].
    destruct (TransactionInputPage.categoryId st) eqn:E;
      [|cbn; intros; repeat split; congruence].
    destruct answer; cbn; intros _ H;
      [repeat split; congruence|].
    now contradiction H.
Qed.

Lemma submit_error_keeps_the_form_witness :
  InputPage.error
    (fst (InputPage.handleSubmit (Samples.fareForm "食費") (Some "offline")
            "2024-06-15")) = Some "取引の登録に失敗しました"
  ∧ InputPage.amount
      (fst (InputPage.handleSubmit (Samples.fareForm "食費") (Some "offline")
              "2024-06-15")) = "480".
Proof.
  split; [reflexivity|].
  refine (proj1 (proj1 submit_error_keeps_the_form (Samples.fareForm "食費")
                   (Some "offline") "2024-06-15" _ _)); discriminate.
Defined.

End EntryPages.

(** ** Loading the category list *)

Section Categories.
Import CategoryList.

(** X18. Once the category list has loaded with at least one row, the first
    row is the selection, so an insert sent from the form right after carries
    the id of a category of the loaded list. An empty list or a failed load
    leaves the earlier selection in place. *)
Theorem loaded_categories_select_first (st : State) (cats : list CategoryRow)
    (uid : string) (ty : TransactionType.t) (date amount memo : string)
    (answer : Store.Answer) (todayStr : string) (p : Store.TransactionInsert) :
  cats ≠ [] →
  In p (Store.inserts
          (snd (TransactionInputPage.handleSubmit
                  (form (fetchCategories st (Rows cats)) uid ty date amount memo)
                  answer todayStr))) →
  (∃ c, head cats = Some c ∧ c ∈ cats ∧ Store.category_id p = category_id c)
  ∧ categoryId (fetchCategories st (Rows [])) = categoryId st
  ∧ ∀ msg, fetchCategories st (Failed msg) = st.
Proof.
  intros Hne Hin. split; [|split; reflexivity].
  destruct cats as [|c cats]; [congruence|].
  exists c. split; [reflexivity|]. split; [apply list_elem_of_here|].
  revert Hin. unfold TransactionInputPage.handleSubmit, form. cbn.
  destruct (_ || _); [intros []|].
  destruct answer; cbn; intros [<-|[]]; reflexivity.
Qed.

Lemma loaded_categories_select_first_witness :
  ∃ c, head [ViewSamples.food] = Some c ∧ c ∈ [ViewSamples.food]
       ∧ Store.category_id ViewSamples.foodInsert = category_id c.
Proof.
  refine (proj1 (loaded_categories_select_first ViewSamples.noSelection
                   [ViewSamples.food] "user-1" TransactionType.expense
                   "2024-06-15" "480" "" None "2024-06-15"
                   ViewSamples.foodInsert _ _)).
  - discriminate.
  - left. reflexivity.
Defined.

End Categories.

(** ** The login page *)

Section LoginPage.
Import Login.

Lemma step_exclusive (st : State) (a : Action) :
  error (fst (step st a)) = None ∨ message (fst (step st a)) = None.
Proof.
  destruct a as [e|o e|t]; cbn.
  - destruct e; cbn; [right | left]; reflexivity.
  - destruct e; cbn; [right | left]; reflexivity.
  - now left.
Qed.

Lemma step_navigation (st : State) (a : Action) (path : string) :
  In (RouterPush path) (snd (step st a)) →
  path = "/dashboard" ∧ a = SubmitLogin None.
Proof.
  destruct a as [e|o e|t]; cbn.
  - destruct e; cbn; intros [H|H]; try discriminate; try (now destruct H).
    destruct H as [H|[]]. injection H as <-. now split.
  - destruct e; cbn; intros [H|[]]; discriminate.
  - intros [].
Qed.

Lemma run_invariant (actions : list Action) (st : State) :
  error st = None ∨ message st = None →
  (error (fst (run st actions)) = None ∨ message (fst (run st actions)) = None)
  ∧ ∀ path, In (RouterPush path) (snd (run st actions)) →
            path = "/dashboard" ∧ In (SubmitLogin None) actions.
Proof.
  revert st. induction actions as [|a rest IH]; intros st Hst.
  - cbn. split; [assumption | intros ? []].
  - cbn [run].
    pose proof (step_exclusive st a) as Hex.
    pose proof (step_navigation st a) as Hnav.
    destruct (step st a) as [st1 e1]. cbn [fst snd] in *.
    specialize (IH st1 Hex). destruct (run st1 rest) as [st2 e2].
    cbn [fst snd] in *. destruct IH as [IH1 IH2]. split; [exact IH1|].
    intros path Hin. apply in_app_or in Hin as [Hin|Hin].
    + apply Hnav in Hin as [-> ->]. split; [reflexivity | now left].
    + apply IH2 in Hin as [-> Hin]. split; [reflexivity | now right].
Qed.

(** X19. However the login page is used from its initial state, it never
    shows an error and a confirmation message together, and it goes to the
    dashboard only if a sign-in succeeded; it goes nowhere else. *)
Theorem login_page_reachable_states (actions : list Action) :
  (error (fst (run initial actions)) = None
   ∨ message (fst (run initial actions)) = None)
  ∧ ∀ path, In (RouterPush path) (snd (run initial actions)) →
            path = "/dashboard" ∧ In (SubmitLogin None) actions.
Proof. apply run_invariant. now left. Qed.

Lemma login_page_reachable_states_witness :
  In (RouterPush "/dashboard") (snd (run initial ViewSamples.secondTry))
  ∧ In (SubmitLogin None) ViewSamples.secondTry.
Proof.
  assert (H : In (RouterPush "/dashboard")
                (snd (run initial ViewSamples.secondTry)))
    by (right; right; left; reflexivity).
  split; [exact H|].
  exact (proj2 (proj2 (login_page_reachable_states ViewSamples.secondTry) _ H)).
Defined.

End LoginPage.

(** ** Creating a goal *)

Section GoalCreation.
Import Goals.

(** X20. [handleCreateGoal] inserts only for the signed-in user and only a
    target that is a number above 0; a goal row holding the inserted amounts
    starts at 0 percent and is not shown as achieved. *)
Theorem created_goal_is_valid_and_starts_empty {L : DateLib} (today : Date)
    (st : State) (insertError : option string) (p : GoalInsert)
    (goal : SavingsGoal) :
  In (Insert p) (snd (handleCreateGoal st insertError)) →
  target_amount goal = ins_target_amount p →
  current_amount goal = ins_current_amount p →
  user st = Some (ins_user_id p)
  ∧ JS.gt (ins_target_amount p) JS.zero = true
  ∧ (∃ q, progress_percentage (calculate today goal) = JS.Num q ∧ (q == 0)%Q)
  ∧ GoalsEdit.achievedShown (calculate today goal) = false.
Proof.
  unfold handleCreateGoal.
  destruct (user st) as [uid|]; [|intros []].
  rewrite js_validation_positive.
  destruct (JS.gt (JS.parseFloat (new_target_amount (newGoal st))) JS.zero) eqn:Hgt;
    cbn [negb]; [|intros []].
  intros Hin Ht Hc.
  assert (Hp : ins_user_id p = uid
               ∧ ins_target_amount p = JS.parseFloat (new_target_amount (newGoal st))
               ∧ ins_current_amount p = JS.zero).
  { destruct insertError; cbn in Hin;
      repeat (destruct Hin as [Hin|Hin];
              [try discriminate; injection Hin as <-; repeat split; reflexivity|]);
      destruct Hin. }
  destruct Hp as (-> & HT & HC). rewrite HT. split; [reflexivity|].
  split; [assumption|].
  unfold GoalsEdit.achievedShown. rewrite progress_percentage_eq, Ht, Hc, HT, HC.
  rewrite (js_gt_zero_or _ Hgt), Hgt.
  change (JS.or JS.zero JS.zero) with JS.zero.
  destruct (JS.parseFloat (new_target_amount (newGoal st))) as [| | |tq];
    try discriminate.
  - split; [exists 0%Q; split; reflexivity | reflexivity].
  - cbn [JS.gt JS.lt JS.zero] in Hgt. apply Qltb_lt in Hgt.
    cbn [JS.div JS.zero]. rewrite (Qeq_bool_pos_false _ Hgt).
    cbn [JS.mul JS.hundred].
    assert (E : (0 / tq * 100 == 0)%Q)
      by (field; intros H; rewrite H in Hgt; now apply Qlt_irrefl in Hgt).
    unfold JS.min, JS.ge, JS.le, JS.isNaN, JS.hundred. cbn [orb].
    rewrite (proj2 (Qle_bool_iff (0 / tq * 100) 100)) by (rewrite E; discriminate).
    split; [eexists; split; [reflexivity | exact E]|].
    apply not_true_iff_false. rewrite Qle_bool_iff, E. lra.
Qed.

Lemma created_goal_is_valid_and_starts_empty_witness :
  JS.gt (ins_target_amount ViewSamples.tripInsert) JS.zero = true
  ∧ GoalsEdit.achievedShown (Samples.calculate ViewSamples.fresh) = false.
Proof.
  pose proof (created_goal_is_valid_and_starts_empty (L := PlainCalendar.lib)
                Samples.today Samples.newGoalForm None ViewSamples.tripInsert
                ViewSamples.fresh (or_introl eq_refl) eq_refl eq_refl)
    as (_ & H1 & _ & H2).
  split; [exact H1 | exact H2].
Defined.

End GoalCreation.
